(** * The notes client: session manager, API client and page handlers

    A shallow embedding of the TypeScript front end:
    - [lib/auth.ts]  (session manager over the Cognito credential store),
    - [lib/api.ts]   (the [request] helper and the domain operations),
    - [app/page.tsx] (the event handlers of the home page),
    - the login page (its sign-in, sign-up and confirmation handlers),
    together with the fragment of JavaScript they rely on (truthiness,
    string conversion, [JSON.stringify], [String.prototype.trim]).

    Asynchronous functions are computations in a state-and-exception monad
    over the browser's world: an [await] is a bind, a rejected promise is a
    thrown exception. *)

From Stdlib Require Import ZArith String Ascii List Bool Lia DecimalString.
From stdpp Require Import base option strings gmap.
Import ListNotations.

Open Scope Z_scope.
Open Scope string_scope.

Set Warnings "-register-all".

(* ================================================================= *)
(** ** JavaScript values *)

Module Js.

(** A string is a sequence of code units; the model covers the code units
    below 256.  A number is an integer (message ids, pixel coordinates):
    fractional numbers are outside the model, and so is the exponent
    notation JavaScript prints integers from 10^21 on with. *)
Inductive JsValue : Type :=
| JsUndefined
| JsNull
| JsBool (b : bool)
| JsNumber (n : Z)
| JsString (s : string)
| JsArray (elements : list JsValue)
| JsObject (properties : list (string * JsValue)).

(** The error classes the client can observe.  All of them are instances
    of [Error]. *)
Inductive ErrorClass : Type := PlainError | TypeError | SyntaxError.

Record JsError : Type := mkJsError { class : ErrorClass; message : string }.

(** [ToBoolean]: what [if (v)], [!v] and [v || w] test. *)
Definition ToBoolean (v : JsValue) : bool :=
  match v with
  | JsUndefined | JsNull => false
  | JsBool b => b
  | JsNumber n => negb (n =? 0)%Z
  | JsString s => negb (String.eqb s EmptyString)
  | JsArray _ | JsObject _ => true
  end.

(** [a || b] *)
Definition or_else (a b : JsValue) : JsValue := if ToBoolean a then a else b.

(** [String(n)] for an integer. *)
Definition NumberToString (n : Z) : string := NilZero.string_of_int (Z.to_int n).

(** [Array.prototype.join] on strings. *)
Definition join (sep : string) (parts : list string) : string := String.concat sep parts.

(** [ToString]: template literals and the [Error] constructor apply it.
    An array prints its elements separated by commas, with [null] and
    [undefined] elements printed as nothing. *)
Fixpoint ToString (v : JsValue) : string :=
  match v with
  | JsUndefined => "undefined"
  | JsNull => "null"
  | JsBool true => "true"
  | JsBool false => "false"
  | JsNumber n => NumberToString n
  | JsString s => s
  | JsArray l =>
      join ","
        (map (fun e => match e with
                       | JsUndefined | JsNull => EmptyString
                       | _ => ToString e
                       end) l)
  | JsObject _ => "[object Object]"
  end.

(** [new Error(m)] for a message [m] that is not [undefined]. *)
Definition new_Error (m : JsValue) : JsError := mkJsError PlainError (ToString m).

(** Own-property lookup in an object literal or a parsed JSON object. *)
Fixpoint lookup_property (key : string) (props : list (string * JsValue)) : JsValue :=
  match props with
  | [] => JsUndefined
  | (k, v) :: rest => if String.eqb k key then v else lookup_property key rest
  end.

(** The engine's wording of the [TypeError] raised by reading a property
    of [null] or [undefined] (V8's text). *)
Definition cannot_read (base key : string) : JsError :=
  mkJsError TypeError
    ("Cannot read properties of " +:+ base +:+ " (reading '" +:+ key +:+ "')").

(** [v.key]: throws on [null] and [undefined]; a primitive or an array has
    none of the property names the client reads, an object is looked up. *)
Definition get_property (v : JsValue) (key : string) : JsError + JsValue :=
  match v with
  | JsUndefined => inl (cannot_read "undefined" key)
  | JsNull => inl (cannot_read "null" key)
  | JsObject props => inr (lookup_property key props)
  | _ => inr JsUndefined
  end.

(** [a === b] where [b] is a number. *)
Definition strict_equals_number (a : JsValue) (n : Z) : bool :=
  match a with
  | JsNumber m => (m =? n)%Z
  | _ => false
  end.

(** *** [String.prototype.trim] *)

(** White space and line terminators among the code units below 256:
    TAB, LF, VT, FF, CR, SP and NBSP. *)
Definition is_white_space (c : ascii) : bool :=
  let n := N_of_ascii c in
  ((9 <=? n) && (n <=? 13) || (n =? 32) || (n =? 160))%N.

Fixpoint trimStart (s : string) : string :=
  match s with
  | EmptyString => EmptyString
  | String c rest => if is_white_space c then trimStart rest else s
  end.

(** [trimEnd] keeps a character when it or something after it is not
    white space. *)
Fixpoint trimEnd (s : string) : string :=
  match s with
  | EmptyString => EmptyString
  | String c rest =>
      match trimEnd rest with
      | EmptyString => if is_white_space c then EmptyString else String c EmptyString
      | kept => String c kept
      end
  end.

Definition trim (s : string) : string := trimEnd (trimStart s).

(** *** [JSON.stringify] *)

Definition dquote : ascii := "034"%char.
Definition backslash : ascii := "092"%char.

Definition hex_digit (n : N) : ascii :=
  (if n <? 10 then ascii_of_N (48 + n) else ascii_of_N (87 + n))%N.

(** [QuoteJSONString] on one code unit. *)
Definition escape_code_unit (c : ascii) : string :=
  let n := N_of_ascii c in
  let esc (x : ascii) := String backslash (String x EmptyString) in
  if (n =? 34)%N then esc dquote
  else if (n =? 92)%N then esc backslash
  else if (n =? 8)%N then esc "b"%char
  else if (n =? 9)%N then esc "t"%char
  else if (n =? 10)%N then esc "n"%char
  else if (n =? 12)%N then esc "f"%char
  else if (n =? 13)%N then esc "r"%char
  else if (n <? 32)%N then
    String backslash
      ("u00" +:+ String (hex_digit (n / 16)) (String (hex_digit (n mod 16)) EmptyString))
  else String c EmptyString.

Fixpoint escape_string (s : string) : string :=
  match s with
  | EmptyString => EmptyString
  | String c rest => escape_code_unit c +:+ escape_string rest
  end.

Definition quote (s : string) : string :=
  String dquote (escape_string s +:+ String dquote EmptyString).

(** Serialization of a value that is not [undefined].  An [undefined]
    array element prints as [null]; a property whose value is [undefined]
    is left out. *)
Fixpoint SerializeJSON (v : JsValue) : string :=
  match v with
  | JsUndefined | JsNull => "null"
  | JsBool true => "true"
  | JsBool false => "false"
  | JsNumber n => NumberToString n
  | JsString s => quote s
  | JsArray l => "[" +:+ join "," (map SerializeJSON l) +:+ "]"
  | JsObject props =>
      "{" +:+
      join ","
        ((fix members (ps : list (string * JsValue)) : list string :=
            match ps with
            | [] => []
            | (k, JsUndefined) :: rest => members rest
            | (k, x) :: rest => (quote k +:+ ":" +:+ SerializeJSON x) :: members rest
            end) props)
      +:+ "}"
  end.

(** [JSON.stringify(v)]: [undefined] (here [None]) for [undefined]. *)
Definition JSON_stringify (v : JsValue) : option string :=
  match v with
  | JsUndefined => None
  | _ => Some (SerializeJSON v)
  end.

End Js.
Export Js.

(* ================================================================= *)
(** ** Promises as a state-and-exception monad *)

Module Promise.

(** How a promise settles. *)
Inductive Settled (A : Type) : Type :=
| Fulfilled (value : A)
| Rejected (reason : JsError).
Arguments Fulfilled {A} value.
Arguments Rejected {A} reason.

(** A computation over a store [S]: it settles and leaves a store.  What
    was written to the store before a rejection stays written. *)
Definition M (S A : Type) : Type := S -> Settled A * S.

Section Combinators.
Context {S : Type}.

Definition ret {A} (a : A) : M S A := fun s => (Fulfilled a, s).

Definition bind {A B} (c : M S A) (k : A -> M S B) : M S B :=
  fun s =>
    match c s with
    | (Fulfilled a, s') => k a s'
    | (Rejected e, s') => (Rejected e, s')
    end.

(** [throw e] *)
Definition throw {A} (e : JsError) : M S A := fun s => (Rejected e, s).

(** [try { c } catch (err) { handler(err) }], and [p.catch(handler)] *)
Definition try_catch {A} (c : M S A) (handler : JsError -> M S A) : M S A :=
  fun s =>
    match c s with
    | (Fulfilled a, s') => (Fulfilled a, s')
    | (Rejected e, s') => handler e s'
    end.

(** [try { c } finally { f }]: [f] runs either way; when it completes
    normally the outcome is that of [c]. *)
Definition try_finally {A} (c : M S A) (f : M S unit) : M S A :=
  fun s =>
    match c s with
    | (r, s') =>
        match f s' with
        | (Fulfilled _, s'') => (r, s'')
        | (Rejected e, s'') => (Rejected e, s'')
        end
    end.

(** An operation that may throw but touches no state. *)
Definition of_result {A} (r : JsError + A) : M S A :=
  match r with
  | inl e => throw e
  | inr a => ret a
  end.

Definition modify (f : S -> S) : M S unit := fun s => (Fulfilled tt, f s).
Definition gets {A} (f : S -> A) : M S A := fun s => (Fulfilled (f s), s).
End Combinators.

(** A computation over the second component of a pair of stores. *)
Definition lift {S W A} (c : M W A) : M (S * W) A :=
  fun sw =>
    match c (snd sw) with
    | (r, w') => (r, (fst sw, w'))
    end.

End Promise.
Export Promise.

Notation "x <- c ;; k" := (bind c (fun x => k))
  (at level 100, c at next level, right associativity).
Notation "c ;; k" := (bind c (fun _ => k))
  (at level 100, right associativity).

(* ================================================================= *)
(** ** The browser's world: credential store, network, router *)

Module Browser.

(** One call of [fetch(url, { method, headers, body })]. *)
Record FetchCall : Type := mkFetchCall {
  url : string;
  init_method : string;
  init_headers : list (string * string);
  init_body : option string            (* [None] is [undefined] *)
}.

(** What the client reads of a response: its status and what
    [response.json()] settles to. *)
Record Response : Type := mkResponse {
  status : Z;
  json : JsError + JsValue
}.

(** [response.ok] *)
Definition ok (r : Response) : bool := (200 <=? status r)%Z && (status r <=? 299)%Z.

(** A session of the credential store, through its accessors
    [getIdToken().getJwtToken()], [getAccessToken().getJwtToken()],
    [getRefreshToken().getToken()] and [isValid()]. *)
Record CognitoUserSession : Type := mkSession {
  getIdToken_getJwtToken : string;
  getAccessToken_getJwtToken : string;
  getRefreshToken_getToken : string;
  isValid : bool
}.

(** The cached user of the pool.  [getSession] holds the two arguments the
    store passes to the callback of [cognitoUser.getSession], after any
    refresh it chose to do.  The refresh itself (the store's own network
    call, and what it writes to its cache) is not followed: the model
    tells what the callback receives, not what the store does to get
    there. *)
Record CognitoUser : Type := mkUser {
  username : string;
  getSession : option JsError * option CognitoUserSession
}.

(** The operations of the API client, recorded when they are invoked
    (a ghost log: the program never reads it). *)
Inductive ApiCall : Type :=
| GetMe
| GetMessages
| CreateMessage (message : string)
| DeleteMessage (id : Z)
| HealthCheck.

Record World : Type := mkWorld {
  NEXT_PUBLIC_API_URL : option string;   (* [process.env.NEXT_PUBLIC_API_URL] *)
  currentUser : option CognitoUser;      (* [userPool.getCurrentUser()] *)
  (** the server and the network: the answer to a call given the calls
      made before it *)
  network : list FetchCall -> FetchCall -> Settled Response;
  fetched : list FetchCall;              (* the calls of [fetch] so far *)
  called : list ApiCall;                 (* ghost log of API operations *)
  pushed : list string                   (* the routes given to [router.push] *)
}.

Definition Async (A : Type) : Type := M World A.

Definition with_currentUser (u : option CognitoUser) (w : World) : World :=
  mkWorld (NEXT_PUBLIC_API_URL w) u (network w) (fetched w) (called w) (pushed w).

Definition with_fetched (l : list FetchCall) (w : World) : World :=
  mkWorld (NEXT_PUBLIC_API_URL w) (currentUser w) (network w) l (called w) (pushed w).

Definition with_called (l : list ApiCall) (w : World) : World :=
  mkWorld (NEXT_PUBLIC_API_URL w) (currentUser w) (network w) (fetched w) l (pushed w).

Definition with_pushed (l : list string) (w : World) : World :=
  mkWorld (NEXT_PUBLIC_API_URL w) (currentUser w) (network w) (fetched w) (called w) l.

(** [await fetch(url, init)] *)
Definition fetch (call : FetchCall) : Async Response :=
  fun w =>
    (network w (fetched w) call, with_fetched (fetched w ++ [call]) w).

(** [await response.json()] *)
Definition Response_json (r : Response) : Async JsValue := of_result (json r).

(** [router.push(route)] *)
Definition router_push (route : string) : Async unit :=
  modify (fun w => with_pushed (pushed w ++ [route]) w).

(** Ghost: note that an API operation was invoked. *)
Definition note (c : ApiCall) : Async unit :=
  modify (fun w => with_called (called w ++ [c]) w).

End Browser.
Export Browser.

(* ================================================================= *)
(** ** lib/auth.ts: the session manager *)

Module Auth.

Record AuthTokens : Type := mkAuthTokens {
  idToken : string;
  accessToken : string;
  refreshToken : string
}.

(** Modelled from the spec: [cognitoUser.signOut()] belongs to the
    credential store, which is not part of the sources; it "clears the
    provider's local session cache", after which the pool has no current
    user. *)
Definition CognitoUser_signOut (u : CognitoUser) : Async unit :=
  modify (with_currentUser None).

Definition signOut : Async unit :=
  cognitoUser <- gets currentUser ;;
  match cognitoUser with
  | Some u => CognitoUser_signOut u
  | None => ret tt
  end.

(** The promise only ever resolves: with [null] when there is no cached
    user, or when the callback of [getSession] receives an error, no
    session, or a session that is not valid; with the three tokens of the
    session otherwise. *)
Definition getCurrentSession : Async (option AuthTokens) :=
  cognitoUser <- gets currentUser ;;
  match cognitoUser with
  | None => ret None
  | Some u =>
      let '(err, session) := getSession u in
      match err, session with
      | None, Some session =>
          if negb (isValid session) then ret None
          else ret (Some {| idToken := getIdToken_getJwtToken session;
                            accessToken := getAccessToken_getJwtToken session;
                            refreshToken := getRefreshToken_getToken session |})
      | _, _ => ret None
      end
  end.

(** [session?.idToken || null] *)
Definition getIdToken : Async (option string) :=
  session <- getCurrentSession ;;
  match session with
  | None => ret None
  | Some tokens =>
      if String.eqb (idToken tokens) EmptyString then ret None
      else ret (Some (idToken tokens))
  end.

End Auth.
Export Auth.

(* ================================================================= *)
(** ** lib/api.ts: the API client *)

Module Api.

(** [process.env.NEXT_PUBLIC_API_URL || "http://localhost:8000"] *)
Definition API_BASE_URL (w : World) : string :=
  match NEXT_PUBLIC_API_URL w with
  | Some u => if String.eqb u EmptyString then "http://localhost:8000" else u
  | None => "http://localhost:8000"
  end.

(** The optional fields of the interface; an absent [body] is
    [undefined]. *)
Record RequestOptions : Type := mkRequestOptions {
  method : option string;
  body : JsValue;
  requireAuth : option bool
}.

(** [headers[name] = value] on an object used as a map. *)
Fixpoint set_header (name value : string) (headers : list (string * string))
  : list (string * string) :=
  match headers with
  | [] => [(name, value)]
  | (k, v) :: rest =>
      if String.eqb k name then (k, value) :: rest
      else (k, v) :: set_header name value rest
  end.

Definition request (endpoint : string) (options : RequestOptions) : Async JsValue :=
  let method_ := default "GET" (method options) in
  let body_ := body options in
  let requireAuth_ := default true (requireAuth options) in
  let headers := [("Content-Type", "application/json")] in
  headers <-
    (if requireAuth_ then
       token <- getIdToken ;;
       match token with
       | Some token =>
           if String.eqb token EmptyString
           then throw (new_Error (JsString "Not authenticated"))
           else ret (set_header "Authorization" ("Bearer " +:+ token) headers)
       | None => throw (new_Error (JsString "Not authenticated"))
       end
     else ret headers) ;;
  base <- gets API_BASE_URL ;;
  response <- fetch {| url := base +:+ endpoint;
                       init_method := method_;
                       init_headers := headers;
                       init_body := if ToBoolean body_ then JSON_stringify body_ else None |} ;;
  if negb (ok response) then
    error <- try_catch (Response_json response)
               (fun _ => ret (JsObject [("detail", JsString "Request failed")])) ;;
    detail <- of_result (get_property error "detail") ;;
    throw (new_Error (or_else detail (JsString "Request failed")))
  else
    Response_json response.

Definition getMe : Async JsValue :=
  note GetMe ;;
  request "/auth/me" {| method := None; body := JsUndefined; requireAuth := None |}.

Definition getMessages : Async JsValue :=
  note GetMessages ;;
  request "/messages" {| method := None; body := JsUndefined; requireAuth := None |}.

Definition createMessage (message : string) : Async JsValue :=
  note (CreateMessage message) ;;
  request "/messages"
    {| method := Some "POST";
       body := JsObject [("message", JsString message)];
       requireAuth := None |}.

Definition healthCheck : Async JsValue :=
  note HealthCheck ;;
  request "/" {| method := None; body := JsUndefined; requireAuth := Some false |}.

(** Modelled from the spec: [deleteMessage] is imported by the page from
    this module, but its definition is not part of the sources.  The spec
    gives it as a thin instantiation of [request]: method DELETE, path
    [/messages/{id}], authenticated, no request body. *)
Definition deleteMessage (id : Z) : Async JsValue :=
  note (DeleteMessage id) ;;
  request ("/messages/" +:+ NumberToString id)
    {| method := Some "DELETE"; body := JsUndefined; requireAuth := None |}.

(** What each operation hands to [request]: the endpoint and the
    options. *)
Definition endpoint_of (c : ApiCall) : string :=
  match c with
  | GetMe => "/auth/me"
  | GetMessages => "/messages"
  | CreateMessage _ => "/messages"
  | DeleteMessage id => "/messages/" +:+ NumberToString id
  | HealthCheck => "/"
  end.

Definition options_of (c : ApiCall) : RequestOptions :=
  match c with
  | GetMe | GetMessages => {| method := None; body := JsUndefined; requireAuth := None |}
  | CreateMessage message =>
      {| method := Some "POST";
         body := JsObject [("message", JsString message)];
         requireAuth := None |}
  | DeleteMessage _ => {| method := Some "DELETE"; body := JsUndefined; requireAuth := None |}
  | HealthCheck => {| method := None; body := JsUndefined; requireAuth := Some false |}
  end.

(** The call of [fetch] that [request] issues, given the headers it has
    built. *)
Definition fetch_call (w : World) (endpoint : string) (options : RequestOptions)
    (headers : list (string * string)) : FetchCall :=
  {| url := API_BASE_URL w +:+ endpoint;
     init_method := default "GET" (method options);
     init_headers := headers;
     init_body := if ToBoolean (body options) then JSON_stringify (body options) else None |}.

Definition not_authenticated : JsError := mkJsError PlainError "Not authenticated".

(** The operation a logged call stands for. *)
Definition perform (c : ApiCall) : Async JsValue :=
  match c with
  | GetMe => getMe
  | GetMessages => getMessages
  | CreateMessage message => createMessage message
  | DeleteMessage id => deleteMessage id
  | HealthCheck => healthCheck
  end.

End Api.
Export Api.

(* ================================================================= *)
(** ** app/page.tsx: the home page *)

Module Page.

(** The hooks of [Home].  [messages] and [user] hold what the server sent,
    as it came out of [response.json()]. *)
Record State : Type := mkState {
  text : string;
  messages : JsValue;                (* declared [Message[]] *)
  user : JsValue;                    (* declared [UserInfo | null] *)
  loading : bool;
  loadingMessages : bool;
  error : option string;
  isAuthenticated : option bool;
  swipeOffset : gmap Z Z;            (* [Record<number, number>] *)
  swiping : option Z;
  startX : Z                         (* [startX.current] *)
}.

Definition initial : State :=
  mkState EmptyString (JsArray []) JsNull false false None None ∅ None 0.

(** A handler runs over the component's state and the world. *)
Definition Handler (A : Type) : Type := M (State * World) A.

(** Record update, field by field. *)
Definition with_text (v : string) (s : State) : State :=
  mkState v (messages s) (user s) (loading s) (loadingMessages s)
    (error s) (isAuthenticated s) (swipeOffset s) (swiping s) (startX s).

Definition with_messages (v : JsValue) (s : State) : State :=
  mkState (text s) v (user s) (loading s) (loadingMessages s)
    (error s) (isAuthenticated s) (swipeOffset s) (swiping s) (startX s).

Definition with_user (v : JsValue) (s : State) : State :=
  mkState (text s) (messages s) v (loading s) (loadingMessages s)
    (error s) (isAuthenticated s) (swipeOffset s) (swiping s) (startX s).

Definition with_loading (v : bool) (s : State) : State :=
  mkState (text s) (messages s) (user s) v (loadingMessages s)
    (error s) (isAuthenticated s) (swipeOffset s) (swiping s) (startX s).

Definition with_loadingMessages (v : bool) (s : State) : State :=
  mkState (text s) (messages s) (user s) (loading s) v
    (error s) (isAuthenticated s) (swipeOffset s) (swiping s) (startX s).

Definition with_error (v : option string) (s : State) : State :=
  mkState (text s) (messages s) (user s) (loading s) (loadingMessages s)
    v (isAuthenticated s) (swipeOffset s) (swiping s) (startX s).

Definition with_isAuthenticated (v : option bool) (s : State) : State :=
  mkState (text s) (messages s) (user s) (loading s) (loadingMessages s)
    (error s) v (swipeOffset s) (swiping s) (startX s).

Definition with_swipeOffset (v : gmap Z Z) (s : State) : State :=
  mkState (text s) (messages s) (user s) (loading s) (loadingMessages s)
    (error s) (isAuthenticated s) v (swiping s) (startX s).

Definition with_swiping (v : option Z) (s : State) : State :=
  mkState (text s) (messages s) (user s) (loading s) (loadingMessages s)
    (error s) (isAuthenticated s) (swipeOffset s) v (startX s).

Definition with_startX (v : Z) (s : State) : State :=
  mkState (text s) (messages s) (user s) (loading s) (loadingMessages s)
    (error s) (isAuthenticated s) (swipeOffset s) (swiping s) v.

Definition update (f : State -> State) : Handler unit :=
  modify (fun sw => (f (fst sw), snd sw)).

Definition setText (v : string) : Handler unit := update (with_text v).

(** [setMessages(f)] with an updater function; [setMessages(v)] is the
    constant updater. *)
Definition setMessages (f : JsValue -> JsValue) : Handler unit :=
  update (fun s => with_messages (f (messages s)) s).

Definition setUser (v : JsValue) : Handler unit := update (with_user v).
Definition setLoading (v : bool) : Handler unit := update (with_loading v).
Definition setLoadingMessages (v : bool) : Handler unit := update (with_loadingMessages v).
Definition setError (v : option string) : Handler unit := update (with_error v).
Definition setIsAuthenticated (v : option bool) : Handler unit := update (with_isAuthenticated v).

Definition setSwipeOffset (f : gmap Z Z -> gmap Z Z) : Handler unit :=
  update (fun s => with_swipeOffset (f (swipeOffset s)) s).

Definition setSwiping (v : option Z) : Handler unit := update (with_swiping v).

(** [startX.current = v] *)
Definition set_startX (v : Z) : Handler unit := update (with_startX v).

(** What the render that installed the handler saw. *)
Definition rendered {A} (f : State -> A) : Handler A := gets (fun sw => f (fst sw)).

(** [err instanceof Error ? err.message : fallback]: everything [request]
    can throw is an instance of [Error]. *)
Definition message_or (fallback : string) (err : JsError) : string := message err.

Definition fetchMessages : Handler unit :=
  setLoadingMessages true ;;
  setError None ;;
  try_finally
    (try_catch
       (data <- lift getMessages ;;
        data_messages <- of_result (get_property data "messages") ;;
        setMessages (fun _ => or_else data_messages (JsArray [])))
       (fun err => setError (Some (message_or "Failed to fetch messages" err))))
    (setLoadingMessages false).

Definition checkAuth : Handler unit :=
  session <- lift getCurrentSession ;;
  match session with
  | None => lift (router_push "/login")
  | Some _ =>
      setIsAuthenticated (Some true) ;;
      try_catch
        (userInfo <- lift getMe ;;
         setUser userInfo ;;
         fetchMessages)
        (fun _ => setError (Some "Failed to load user info"))
  end.

(** [e.preventDefault()] acts on the event only. *)
Definition handleSubmit : Handler unit :=
  text_ <- rendered text ;;
  if String.eqb (trim text_) EmptyString then ret tt else
  setLoading true ;;
  setError None ;;
  try_finally
    (try_catch
       (lift (createMessage text_) ;;
        setText EmptyString ;;
        fetchMessages)
       (fun err => setError (Some (message_or "Failed to send message" err))))
    (setLoading false).

Definition handleSignOut : Handler unit :=
  lift signOut ;;
  lift (router_push "/login").

(** [prev.filter((msg) => msg.id !== id)].  The state is declared
    [Message[]], an array of objects: a state that is not an array is left
    as it is, and so is an element whose [id] cannot be read. *)
Definition without_id (id : Z) (prev : JsValue) : JsValue :=
  match prev with
  | JsArray l =>
      JsArray
        (List.filter
           (fun msg =>
              match get_property msg "id" with
              | inr msg_id => negb (strict_equals_number msg_id id)
              | inl _ => true
              end) l)
  | other => other
  end.

Definition handleDelete (id : Z) : Handler unit :=
  try_catch
    (lift (deleteMessage id) ;;
     setMessages (without_id id))
    (fun err => setError (Some (message_or "Failed to delete message" err))).

Definition handleSwipeStart (id clientX : Z) : Handler unit :=
  set_startX clientX ;;
  setSwiping (Some id).

(** [swiping !== id] *)
Definition is_swiping (id : Z) (s : State) : bool :=
  match swiping s with
  | Some j => (j =? id)%Z
  | None => false
  end.

Definition handleSwipeMove (id clientX : Z) : Handler unit :=
  on_it <- rendered (is_swiping id) ;;
  if negb on_it then ret tt else
  start <- rendered startX ;;
  let diff := (clientX - start)%Z in
  setSwipeOffset (fun prev => <[id := Z.min 0 diff]> prev).

(** [swipeOffset[id] || 0] *)
Definition offset_of (id : Z) (s : State) : Z := default 0%Z (swipeOffset s !! id).

(** [handleDelete(id)] is not awaited: its promise settles after the two
    setters have run.  It writes [messages] and [error] only, and through
    updaters, so the state reached is the same in either order. *)
Definition handleSwipeEnd (id : Z) : Handler unit :=
  offset <- rendered (offset_of id) ;;
  (if (offset <? -100)%Z then handleDelete id else ret tt) ;;
  setSwipeOffset (fun prev => <[id := 0%Z]> prev) ;;
  setSwiping None.

End Page.
Export Page.

(* ================================================================= *)
(** ** What lib/api.ts exports and what the home page imports *)

Module Exports.

(** An exported function: of no argument, or of one string. *)
Inductive Exported : Type :=
| Thunk (f : Async JsValue)
| OfString (f : string -> Async JsValue).




(** Calling an exported function; one of no argument ignores it. *)
Definition call (e : Exported) (argument : string) : Async JsValue :=
  match e with
  | Thunk f => f
  | OfString f => f argument
  end.

End Exports.

(* ================================================================= *)
(** ** Promises that may be rejected with any value *)

Module Task.

(** A computation over a store [S] that settles with a value or with a
    rejection reason of type [E]. *)
Definition T (E S A : Type) : Type := S -> (E + A) * S.

Section Combinators.
Context {E S : Type}.

Definition pure {A} (a : A) : T E S A := fun s => (inr a, s).

Definition and_then {A B} (c : T E S A) (k : A -> T E S B) : T E S B :=
  fun s =>
    match c s with
    | (inr a, s') => k a s'
    | (inl e, s') => (inl e, s')
    end.

(** [try { c } catch (err) { handler(err) }] *)
Definition catching {A} (c : T E S A) (handler : E -> T E S A) : T E S A :=
  fun s =>
    match c s with
    | (inr a, s') => (inr a, s')
    | (inl e, s') => handler e s'
    end.

(** [try { c } finally { f }] *)
Definition finally {A} (c : T E S A) (f : T E S unit) : T E S A :=
  fun s =>
    match c s with
    | (r, s') =>
        match f s' with
        | (inr _, s'') => (r, s'')
        | (inl e, s'') => (inl e, s'')
        end
    end.

Definition change (f : S -> S) : T E S unit := fun s => (inr tt, f s).
Definition read {A} (f : S -> A) : T E S A := fun s => (inr (f s), s).
End Combinators.

(** A computation over the second component of a pair of stores. *)
Definition on_world {E S W A} (c : T E W A) : T E (S * W) A :=
  fun sw =>
    match c (snd sw) with
    | (r, w') => (r, (fst sw, w'))
    end.

End Task.

Notation "x <~ c ;; k" := (Task.and_then c (fun x => k))
  (at level 100, c at next level, right associativity).
Notation "c ~;; k" := (Task.and_then c (fun _ => k))
  (at level 100, right associativity).

(* ================================================================= *)
(** ** lib/auth.ts: sign-up, confirmation and sign-in *)

Module AuthSdk.

(** What the identity SDK may hand to a callback as the error, and what
    the promises below may be rejected with: an [Error], or any other
    value ([undefined] and [null] when there is no error). *)
Inductive Thrown : Type :=
| AnError (e : JsError)
| NotAnError (v : JsValue).

(** [if (err)] *)
Definition truthy (err : Thrown) : bool :=
  match err with
  | AnError _ => true
  | NotAnError v => ToBoolean v
  end.

Record CognitoUserAttribute : Type := mkAttribute { Name : string; Value : string }.

Record AuthenticationDetails : Type := mkDetails { Username : string; Password : string }.

(** The SDK is not part of the sources: its three operations are taken as
    given.  Each tells what its callback receives and the world it leaves
    (the SDK keeps its own cache).
    - [userPool.signUp(email, password, attributeList, [], callback)]:
      the [err] argument of the callback;
    - [cognitoUser.confirmRegistration(code, true, callback)] on the user
      of a given name: the [err] argument of the callback;
    - [cognitoUser.authenticateUser(details, { onSuccess, onFailure })]:
      the error given to [onFailure], or the session given to
      [onSuccess]. *)
Record Sdk : Type := mkSdk {
  userPool_signUp :
    string -> string -> list CognitoUserAttribute -> World -> Thrown * World;
  confirmRegistration :
    string -> string -> bool -> World -> Thrown * World;
  authenticateUser :
    string -> AuthenticationDetails -> World -> (Thrown + CognitoUserSession) * World
}.

Definition signUp (sdk : Sdk) (email password : string) : Task.T Thrown World unit :=
  fun w =>
    let attributeList := [ {| Name := "email"; Value := email |} ] in
    match userPool_signUp sdk email password attributeList w with
    | (err, w') => if truthy err then (inl err, w') else (inr tt, w')
    end.

Definition confirmSignUp (sdk : Sdk) (email code : string) : Task.T Thrown World unit :=
  fun w =>
    match confirmRegistration sdk email code true w with
    | (err, w') => if truthy err then (inl err, w') else (inr tt, w')
    end.

Definition signIn (sdk : Sdk) (email password : string) : Task.T Thrown World AuthTokens :=
  fun w =>
    let authenticationDetails := {| Username := email; Password := password |} in
    match authenticateUser sdk email authenticationDetails w with
    | (inr session, w') =>
        (inr {| idToken := getIdToken_getJwtToken session;
                accessToken := getAccessToken_getJwtToken session;
                refreshToken := getRefreshToken_getToken session |}, w')
    | (inl err, w') => (inl err, w')
    end.

End AuthSdk.

(* ================================================================= *)
(** ** The login page *)

Module Login.
Import AuthSdk.

Inductive AuthMode : Type := signin | signup | confirm.

Record State : Type := mkState {
  mode : AuthMode;
  email : string;
  password : string;
  confirmCode : string;
  error : option string;
  loading : bool
}.

Definition initial : State := mkState signin EmptyString EmptyString EmptyString None false.

Definition Handler (A : Type) : Type := Task.T Thrown (State * World) A.

Definition update (f : State -> State) : Handler unit :=
  Task.change (fun sw => (f (fst sw), snd sw)).

Definition with_mode (v : AuthMode) (s : State) : State :=
  mkState v (email s) (password s) (confirmCode s) (error s) (loading s).

Definition with_error (v : option string) (s : State) : State :=
  mkState (mode s) (email s) (password s) (confirmCode s) v (loading s).

Definition with_loading (v : bool) (s : State) : State :=
  mkState (mode s) (email s) (password s) (confirmCode s) (error s) v.

Definition setMode (v : AuthMode) : Handler unit := update (with_mode v).
Definition setError (v : option string) : Handler unit := update (with_error v).
Definition setLoading (v : bool) : Handler unit := update (with_loading v).

(** What the render that installed the handler saw. *)
Definition rendered {A} (f : State -> A) : Handler A := Task.read (fun sw => f (fst sw)).

(** [router.push(route)]; it does not throw. *)
Definition push (route : string) : Handler unit :=
  Task.change (fun sw => (fst sw, with_pushed (pushed (snd sw) ++ [route]) (snd sw))).

(** [err instanceof Error ? err.message : fallback] *)
Definition message_or (fallback : string) (err : Thrown) : string :=
  match err with
  | AnError e => message e
  | NotAnError _ => fallback
  end.

(** In the three handlers [e.preventDefault()] acts on the event only. *)
Definition handleSignIn (sdk : Sdk) : Handler unit :=
  email_ <~ rendered email ;;
  password_ <~ rendered password ;;
  setError None ~;;
  setLoading true ~;;
  Task.finally
    (Task.catching
       (Task.on_world (signIn sdk email_ password_) ~;;
        push "/")
       (fun err => setError (Some (message_or "Sign in failed" err))))
    (setLoading false).

Definition handleSignUp (sdk : Sdk) : Handler unit :=
  email_ <~ rendered email ;;
  password_ <~ rendered password ;;
  setError None ~;;
  setLoading true ~;;
  Task.finally
    (Task.catching
       (Task.on_world (signUp sdk email_ password_) ~;;
        setMode confirm)
       (fun err => setError (Some (message_or "Sign up failed" err))))
    (setLoading false).

Definition handleConfirm (sdk : Sdk) : Handler unit :=
  email_ <~ rendered email ;;
  password_ <~ rendered password ;;
  confirmCode_ <~ rendered confirmCode ;;
  setError None ~;;
  setLoading true ~;;
  Task.finally
    (Task.catching
       (Task.on_world (confirmSignUp sdk email_ confirmCode_) ~;;
        Task.on_world (signIn sdk email_ password_) ~;;
        push "/")
       (fun err => setError (Some (message_or "Confirmation failed" err))))
    (setLoading false).

End Login.

(* ================================================================= *)
(** ** Sample worlds *)

Module Samples.

(** A server that gives the same answer to every call. *)
Definition always (r : Response) : list FetchCall -> FetchCall -> Settled Response :=
  fun _ _ => Fulfilled r.

Definition world_of (u : option CognitoUser)
    (net : list FetchCall -> FetchCall -> Settled Response) : World :=
  mkWorld None u net [] [] [].

Definition alice_session : CognitoUserSession :=
  mkSession "id.jwt" "access.jwt" "refresh.tok" true.

Definition alice : CognitoUser := mkUser "alice@example.com" (None, Some alice_session).

(** A user whose cached session has expired and could not be refreshed. *)
Definition expired : CognitoUser :=
  mkUser "bob@example.com" (None, Some (mkSession "old.jwt" "old.jwt" "old.tok" false)).

Definition note_7 : JsValue :=
  JsObject [("id", JsNumber 7); ("message", JsString "squats");
            ("created_at", JsString "2024-01-02T10:00:00")].

Definition note_8 : JsValue :=
  JsObject [("id", JsNumber 8); ("message", JsString "bench");
            ("created_at", JsString "2024-01-03T10:00:00")].

Definition detail_payload (d : JsValue) : JsValue := JsObject [("detail", d)].

(** A server in the shape of the HTTP surface: POST answers with the
    created message, DELETE with "not found", anything else with the list
    of messages. *)
Definition notes_server : list FetchCall -> FetchCall -> Settled Response :=
  fun _ call =>
    if String.eqb (init_method call) "POST" then
      Fulfilled (mkResponse 200 (inr note_8))
    else if String.eqb (init_method call) "DELETE" then
      Fulfilled (mkResponse 404 (inr (detail_payload (JsString "Message not found"))))
    else
      Fulfilled (mkResponse 200 (inr (JsObject [("messages", JsArray [note_8; note_7])]))).


(** The page showing two notes, with [draft] typed into the form. *)
Definition two_notes (draft : string) : State :=
  with_text draft (with_messages (JsArray [note_8; note_7]) initial).

(** The page showing the older note only, with [draft] typed into the
    form. *)
Definition one_note (draft : string) : State :=
  with_text draft (with_messages (JsArray [note_7]) initial).

(** The page in the middle of a swipe on note 7, dragged to [offset]. *)
Definition swiped (offset : Z) : State :=
  with_swiping (Some 7%Z) (with_swipeOffset (<[7%Z := offset]> ∅) (two_notes EmptyString)).

Definition signed_in : World := world_of (Some alice) notes_server.

End Samples.

(* ================================================================= *)
(** ** Sample identity providers *)

Module LoginSamples.
Import AuthSdk.

Definition not_authorized : Thrown :=
  AnError (mkJsError PlainError "Incorrect username or password.").

(** A provider with one confirmed account: it accepts every sign-up and
    every confirmation code, authenticates the password [hunter2] and
    caches the session it hands out. *)
Definition one_account : Sdk :=
  {| userPool_signUp := fun _ _ _ w => (NotAnError JsUndefined, w);
     confirmRegistration := fun _ _ _ w => (NotAnError JsUndefined, w);
     authenticateUser := fun _ details w =>
       if String.eqb (Password details) "hunter2"
       then (inr Samples.alice_session, with_currentUser (Some Samples.alice) w)
       else (inl not_authorized, w) |}.

(** A provider whose every operation fails with the same reason. *)
Definition failing (reason : Thrown) : Sdk :=
  {| userPool_signUp := fun _ _ _ w => (reason, w);
     confirmRegistration := fun _ _ _ w => (reason, w);
     authenticateUser := fun _ _ w => (inl reason, w) |}.

(** The form filled in. *)
Definition filled (m : Login.AuthMode) (pw : string) : Login.State :=
  Login.mkState m "alice@example.com" pw "123456" (Some "stale error") false.

End LoginSamples.

(* ================================================================= *)
(** ** The JavaScript fragment on examples *)

Example ToString_nested_array :
  ToString (JsArray [JsNumber 1; JsNull; JsArray [JsNumber 2; JsNumber 3]]) = "1,,2,3".
Proof. reflexivity. Qed.

Example trim_spaces : trim "  a b  " = "a b".
Proof. reflexivity. Qed.

Example stringify_message :
  JSON_stringify (JsObject [("message", JsString "hi")])
  = Some (String "{" (quote "message" +:+ ":" +:+ quote "hi" +:+ "}")).
Proof. reflexivity. Qed.

(* ================================================================= *)
(** ** The session manager *)

Ltac run :=
  unfold bind, ret, throw, try_catch, try_finally, of_result, modify, gets, lift in *;
  simpl in *.

Lemma getCurrentSession_pure (w : World) : snd (getCurrentSession w) = w.
Proof.
  unfold getCurrentSession; run.
  destruct (currentUser w) as [u|]; [|reflexivity].
  destruct (getSession u) as [[e|] [s|]]; try reflexivity.
  destruct (isValid s); reflexivity.
Qed.

Lemma getIdToken_pure (w : World) : snd (getIdToken w) = w.
Proof.
  unfold getIdToken, bind.
  pose proof (getCurrentSession_pure w) as Hw.
  destruct (getCurrentSession w) as [[[t|]|e] w']; simpl in *; subst; try reflexivity.
  destruct (String.eqb _ _); reflexivity.
Qed.

Lemma getCurrentSession_resolves (w : World) :
  exists r, getCurrentSession w = (Fulfilled r, w).
Proof.
  unfold getCurrentSession; run.
  destruct (currentUser w) as [u|]; [|eauto].
  destruct (getSession u) as [[e|] [s|]]; eauto.
  destruct (isValid s); eauto.
Qed.

Lemma getIdToken_resolves (w : World) :
  exists r, getIdToken w = (Fulfilled r, w).
Proof.
  unfold getIdToken, bind.
  destruct (getCurrentSession_resolves w) as [[t|] ->]; [|eexists; reflexivity].
  destruct (String.eqb _ _); eexists; reflexivity.
Qed.

(** C4. Whatever the credential store holds, [getCurrentSession] resolves
    either to [null] or to the three tokens of a session whose [isValid()]
    holds; it resolves to [null] exactly when there is no cached user, or
    [getSession] reports an error, no session, or a session that is not
    valid. *)
Theorem getCurrentSession_absent_or_valid (w : World) :
  snd (getCurrentSession w) = w /\
  (fst (getCurrentSession w) = Fulfilled None \/
   exists u session,
     currentUser w = Some u /\
     getSession u = (None, Some session) /\
     isValid session = true /\
     fst (getCurrentSession w)
     = Fulfilled (Some {| idToken := getIdToken_getJwtToken session;
                          accessToken := getAccessToken_getJwtToken session;
                          refreshToken := getRefreshToken_getToken session |})) /\
  (fst (getCurrentSession w) = Fulfilled None <->
   currentUser w = None \/
   exists u,
     currentUser w = Some u /\
     (fst (getSession u) <> None \/
      snd (getSession u) = None \/
      exists session, snd (getSession u) = Some session /\ isValid session = false)).
Proof.
  split; [apply getCurrentSession_pure|].
  unfold getCurrentSession; run.
  destruct (currentUser w) as [u|] eqn:Hu.
  2:{ split; [left; reflexivity|]. split; auto. }
  destruct (getSession u) as [[e|] [s|]] eqn:Hs; simpl.
  - split; [left; reflexivity|]. split; [|reflexivity].
    intros _. right. exists u. rewrite Hs. split; [reflexivity|]. left. discriminate.
  - split; [left; reflexivity|]. split; [|reflexivity].
    intros _. right. exists u. rewrite Hs. split; [reflexivity|]. left. discriminate.
  - destruct (isValid s) eqn:Hv; simpl.
    + split.
      * right. exists u, s. repeat split; assumption || reflexivity.
      * split; [discriminate|].
        intros [Hn | (u' & Hu' & H)]; [discriminate|].
        injection Hu' as <-. rewrite Hs in H. simpl in H.
        destruct H as [H | [H | (s' & H & Hv')]]; [congruence | discriminate |].
        injection H as <-. congruence.
    + split; [left; reflexivity|]. split; [|reflexivity].
      intros _. right. exists u. rewrite Hs. split; [reflexivity|].
      right. right. exists s. split; [reflexivity | assumption].
  - split; [left; reflexivity|]. split; [|reflexivity].
    intros _. right. exists u. rewrite Hs. split; [reflexivity|]. right. left. reflexivity.
Qed.

Lemma getCurrentSession_signed_out (w : World) :
  currentUser w = None -> getCurrentSession w = (Fulfilled None, w).
Proof. intros H. unfold getCurrentSession; run. rewrite H. reflexivity. Qed.

Lemma signOut_clears (w : World) : currentUser (snd (signOut w)) = None.
Proof.
  unfold signOut, CognitoUser_signOut; run.
  destruct (currentUser w) eqn:H; simpl; [reflexivity | assumption].
Qed.

Lemma signOut_resolves (w : World) : fst (signOut w) = Fulfilled tt.
Proof.
  unfold signOut, CognitoUser_signOut; run.
  destruct (currentUser w); reflexivity.
Qed.

Lemma signOut_noop (w : World) : currentUser w = None -> signOut w = (Fulfilled tt, w).
Proof. intros H. unfold signOut; run. rewrite H. reflexivity. Qed.

(** C5. [signOut] never fails; a second [signOut] in a row changes nothing
    more; [getCurrentSession] resolves to [null] after each of the two
    calls; and without a cached user [signOut] leaves the world as it is. *)
Theorem signOut_idempotent (w : World) :
  fst (signOut w) = Fulfilled tt /\
  signOut (snd (signOut w)) = (Fulfilled tt, snd (signOut w)) /\
  fst (getCurrentSession (snd (signOut w))) = Fulfilled None /\
  fst (getCurrentSession (snd (signOut (snd (signOut w))))) = Fulfilled None /\
  (currentUser w = None -> signOut w = (Fulfilled tt, w)).
Proof.
  pose proof (signOut_clears w) as Hc.
  pose proof (signOut_noop _ Hc) as Hn.
  repeat split.
  - apply signOut_resolves.
  - exact Hn.
  - rewrite (getCurrentSession_signed_out _ Hc). reflexivity.
  - rewrite Hn. simpl. rewrite (getCurrentSession_signed_out _ Hc). reflexivity.
  - apply signOut_noop.
Qed.

Lemma signOut_idempotent_witness :
  signOut (Samples.world_of None (Samples.always (mkResponse 200 (inr JsNull))))
  = (Fulfilled tt, Samples.world_of None (Samples.always (mkResponse 200 (inr JsNull)))) /\
  fst (getCurrentSession (snd (signOut (Samples.world_of (Some Samples.alice) Samples.notes_server))))
  = Fulfilled None.
Proof.
  split.
  - apply (signOut_idempotent (Samples.world_of None _)). reflexivity.
  - apply (signOut_idempotent (Samples.world_of (Some Samples.alice) Samples.notes_server)).
Defined.

(* ================================================================= *)
(** ** The API client *)

Lemma getIdToken_eq (w : World) (t : option string) :
  fst (getIdToken w) = Fulfilled t -> getIdToken w = (Fulfilled t, w).
Proof.
  intros H. destruct (getIdToken_resolves w) as [r Hr].
  rewrite Hr in H |- *. simpl in H. congruence.
Qed.

Lemma getIdToken_nonempty (w : World) (t : string) :
  fst (getIdToken w) = Fulfilled (Some t) -> String.eqb t EmptyString = false.
Proof.
  unfold getIdToken, bind.
  destruct (getCurrentSession_resolves w) as [[tokens|] ->]; simpl; [|discriminate].
  destruct (String.eqb (idToken tokens) EmptyString) eqn:E; simpl; [discriminate|].
  intros [= <-]. exact E.
Qed.

(** The world [request] leaves when it got past the token check: one more
    call of [fetch], nothing else. *)
Lemma request_after_fetch (w : World) (call : FetchCall) (k : Response -> Async JsValue) :
  (forall r w', snd (k r w') = w') ->
  snd (bind (fetch call) k w) = with_fetched (fetched w ++ [call]) w.
Proof.
  intros Hk. unfold bind, fetch.
  destruct (network w (fetched w) call) as [r|e]; [apply Hk | reflexivity].
Qed.

Lemma respond_pure (r : Response) (w : World) :
  snd ((if negb (ok r) then
          error <- try_catch (Response_json r)
                     (fun _ => ret (JsObject [("detail", JsString "Request failed")])) ;;
          detail <- of_result (get_property error "detail") ;;
          throw (new_Error (or_else detail (JsString "Request failed")))
        else Response_json r) w) = w.
Proof.
  unfold Response_json. destruct (negb (ok r)); run.
  - destruct (json r) as [e|v]; simpl.
    + reflexivity.
    + destruct (get_property v "detail"); reflexivity.
  - destruct (json r); reflexivity.
Qed.

Lemma request_with_token (endpoint : string) (options : RequestOptions) (w : World)
    (token : string) :
  requireAuth options = None \/ requireAuth options = Some true ->
  fst (getIdToken w) = Fulfilled (Some token) ->
  request endpoint options w
  = bind (fetch (fetch_call w endpoint options
                   [("Content-Type", "application/json");
                    ("Authorization", "Bearer " +:+ token)]))
      (fun response =>
         if negb (ok response) then
           error <- try_catch (Response_json response)
                      (fun _ => ret (JsObject [("detail", JsString "Request failed")])) ;;
           detail <- of_result (get_property error "detail") ;;
           throw (new_Error (or_else detail (JsString "Request failed")))
         else Response_json response) w.
Proof.
  intros Hauth Htok.
  pose proof (getIdToken_nonempty _ _ Htok) as Hne.
  apply getIdToken_eq in Htok.
  unfold request.
  replace (default true (requireAuth options)) with true by (destruct Hauth as [-> | ->]; reflexivity).
  unfold bind at 1. unfold bind at 1. rewrite Htok. rewrite Hne.
  reflexivity.
Qed.

Lemma request_without_auth (endpoint : string) (options : RequestOptions) (w : World) :
  requireAuth options = Some false ->
  request endpoint options w
  = bind (fetch (fetch_call w endpoint options [("Content-Type", "application/json")]))
      (fun response =>
         if negb (ok response) then
           error <- try_catch (Response_json response)
                      (fun _ => ret (JsObject [("detail", JsString "Request failed")])) ;;
           detail <- of_result (get_property error "detail") ;;
           throw (new_Error (or_else detail (JsString "Request failed")))
         else Response_json response) w.
Proof.
  intros Hauth. unfold request. rewrite Hauth. reflexivity.
Qed.

Lemma request_signed_out (endpoint : string) (options : RequestOptions) (w : World) :
  requireAuth options = None \/ requireAuth options = Some true ->
  fst (getIdToken w) = Fulfilled None ->
  request endpoint options w = (Rejected not_authenticated, w).
Proof.
  intros Hauth Htok. apply getIdToken_eq in Htok.
  unfold request.
  replace (default true (requireAuth options)) with true by (destruct Hauth as [-> | ->]; reflexivity).
  unfold bind at 1. unfold bind at 1. rewrite Htok. reflexivity.
Qed.

(** C1. A call through [request] that requires authentication (the
    default) while [getIdToken] yields [null] is rejected with the error
    "Not authenticated", and [fetch] is not called: the world is left as
    it was. *)
Theorem request_not_authenticated (endpoint : string) (options : RequestOptions) (w : World) :
  requireAuth options = None \/ requireAuth options = Some true ->
  fst (getIdToken w) = Fulfilled None ->
  request endpoint options w = (Rejected (mkJsError PlainError "Not authenticated"), w) /\
  fetched (snd (request endpoint options w)) = fetched w.
Proof.
  intros Hauth Htok.
  rewrite (request_signed_out _ _ _ Hauth Htok). split; reflexivity.
Qed.

Lemma request_not_authenticated_witness :
  request "/messages"
    {| method := Some "POST"; body := JsObject [("message", JsString "squats")];
       requireAuth := None |}
    (Samples.world_of (Some Samples.expired) Samples.notes_server)
  = (Rejected (mkJsError PlainError "Not authenticated"),
     Samples.world_of (Some Samples.expired) Samples.notes_server) /\
  fetched (snd (request "/messages"
    {| method := Some "POST"; body := JsObject [("message", JsString "squats")];
       requireAuth := None |}
    (Samples.world_of (Some Samples.expired) Samples.notes_server))) = [].
Proof.
  apply (request_not_authenticated "/messages" _
           (Samples.world_of (Some Samples.expired) Samples.notes_server)).
  - left. reflexivity.
  - reflexivity.
Defined.

Lemma getIdToken_with_called (l : list ApiCall) (w : World) :
  fst (getIdToken (with_called l w)) = fst (getIdToken w).
Proof.
  unfold getIdToken, getCurrentSession; run.
  destruct (currentUser w) as [u|]; [|reflexivity].
  destruct (getSession u) as [[e|] [s|]]; try reflexivity.
  destruct (isValid s); simpl; [|reflexivity].
  destruct (String.eqb _ _); reflexivity.
Qed.

Lemma perform_request (c : ApiCall) :
  perform c = (note c ;; request (endpoint_of c) (options_of c)).
Proof. destruct c; reflexivity. Qed.

Lemma perform_unfold (c : ApiCall) (w : World) :
  perform c w = request (endpoint_of c) (options_of c) (with_called (called w ++ [c]) w).
Proof. rewrite perform_request. reflexivity. Qed.


(** C8. A call through [request] that requires authentication, made while
    a token is present and with a body as the module passes it (none, or
    an object), issues exactly one [fetch], with the headers
    [Content-Type: application/json] and [Authorization: Bearer <token>];
    a body that is provided goes out as its JSON text, and without one the
    call has no body.  [createMessage] sends POST [/messages] with the
    JSON text of [{message: text}]; [getMessages] sends GET [/messages]
    with no body. *)
Theorem request_bearer_and_json_body (endpoint : string) (options : RequestOptions)
    (w : World) (token : string) :
  requireAuth options = None \/ requireAuth options = Some true ->
  fst (getIdToken w) = Fulfilled (Some token) ->
  body options = JsUndefined \/ (exists properties, body options = JsObject properties) ->
  fetched (snd (request endpoint options w))
  = (fetched w ++ [ {| url := API_BASE_URL w +:+ endpoint;
                      init_method := default "GET" (method options);
                      init_headers := [("Content-Type", "application/json");
                                       ("Authorization", "Bearer " +:+ token)];
                      init_body := match body options with
                                   | JsUndefined => None
                                   | provided => Some (SerializeJSON provided)
                                   end |} ])%list /\
  (forall message,
     fetched (snd (createMessage message w))
     = (fetched w ++ [ {| url := API_BASE_URL w +:+ "/messages";
                         init_method := "POST";
                         init_headers := [("Content-Type", "application/json");
                                          ("Authorization", "Bearer " +:+ token)];
                         init_body := Some (SerializeJSON
                                              (JsObject [("message", JsString message)])) |} ])%list) /\
  fetched (snd (getMessages w))
  = (fetched w ++ [ {| url := API_BASE_URL w +:+ "/messages";
                      init_method := "GET";
                      init_headers := [("Content-Type", "application/json");
                                       ("Authorization", "Bearer " +:+ token)];
                      init_body := None |} ])%list.
Proof.
  intros Hauth Htok Hbody. split; [|split].
  - rewrite (request_with_token _ _ _ _ Hauth Htok).
    rewrite request_after_fetch by (intros; apply respond_pure).
    simpl. unfold fetch_call. do 3 f_equal.
    destruct Hbody as [-> | [properties ->]]; reflexivity.
  - intros message.
    change (createMessage message w) with (perform (CreateMessage message) w).
    rewrite perform_unfold.
    rewrite (request_with_token _ _ _ token) by
      (simpl; auto; rewrite getIdToken_with_called; exact Htok).
    rewrite request_after_fetch by (intros; apply respond_pure).
    reflexivity.
  - change (getMessages w) with (perform GetMessages w).
    rewrite perform_unfold.
    rewrite (request_with_token _ _ _ token) by
      (simpl; auto; rewrite getIdToken_with_called; exact Htok).
    rewrite request_after_fetch by (intros; apply respond_pure).
    reflexivity.
Qed.

Lemma request_bearer_and_json_body_witness :
  fetched (snd (request "/messages"
                  {| method := Some "POST";
                     body := JsObject [("message", JsString "squats")];
                     requireAuth := None |}
                  Samples.signed_in))
  = [ {| url := "http://localhost:8000/messages";
         init_method := "POST";
         init_headers := [("Content-Type", "application/json");
                          ("Authorization", "Bearer id.jwt")];
         init_body := Some (String "{" (quote "message" +:+ ":" +:+ quote "squats" +:+ "}")) |} ].
Proof.
  apply (proj1 (request_bearer_and_json_body "/messages"
           {| method := Some "POST";
              body := JsObject [("message", JsString "squats")];
              requireAuth := None |}
           Samples.signed_in "id.jwt"
           (or_introl eq_refl) eq_refl
           (or_intror (ex_intro _ [("message", JsString "squats")] eq_refl)))).
Defined.


Lemma ok_2xx (r : Response) : ok r = true <-> 200 <= status r <= 299.
Proof. unfold ok. rewrite andb_true_iff, !Z.leb_le. reflexivity. Qed.





(* ================================================================= *)
(** ** The home page *)

Lemma request_world (endpoint : string) (options : RequestOptions) (w : World) :
  snd (request endpoint options w) = w \/
  exists call, snd (request endpoint options w) = with_fetched (fetched w ++ [call]) w.
Proof.
  destruct (getIdToken_resolves w) as [t Ht].
  assert (fst (getIdToken w) = Fulfilled t) as Hf by (rewrite Ht; reflexivity).
  destruct (requireAuth options) as [[|]|] eqn:Hr.
  2:{ right. eexists. rewrite request_without_auth by exact Hr.
      apply request_after_fetch. intros; apply respond_pure. }
  all: destruct t as [token|];
    [ right; eexists; rewrite (request_with_token _ _ _ token) by auto;
      apply request_after_fetch; intros; apply respond_pure
    | left; rewrite request_signed_out by auto; reflexivity ].
Qed.

Lemma request_called (endpoint : string) (options : RequestOptions) (w : World) :
  called (snd (request endpoint options w)) = called w.
Proof.
  destruct (request_world endpoint options w) as [-> | [call ->]]; reflexivity.
Qed.

Lemma perform_called (c : ApiCall) (w : World) :
  called (snd (perform c w)) = (called w ++ [c])%list.
Proof. rewrite perform_unfold, request_called. reflexivity. Qed.

Lemma handleDelete_run (id : Z) (st : State) (w : World) :
  handleDelete id (st, w)
  = match deleteMessage id w with
    | (Fulfilled _, w') =>
        (Fulfilled tt, (with_messages (without_id id (messages st)) st, w'))
    | (Rejected e, w') =>
        (Fulfilled tt, (with_error (Some (message e)) st, w'))
    end.
Proof.
  unfold handleDelete, setMessages, setError, update, message_or; run.
  destruct (deleteMessage id w) as [[v|e] w']; reflexivity.
Qed.

(** [handleDelete] never rejects, and invokes [deleteMessage] and nothing
    else. *)
Lemma handleDelete_settles (id : Z) (st : State) (w : World) :
  exists st',
    handleDelete id (st, w) = (Fulfilled tt, (st', snd (deleteMessage id w))) /\
    called (snd (deleteMessage id w)) = (called w ++ [DeleteMessage id])%list.
Proof.
  rewrite handleDelete_run.
  pose proof (perform_called (DeleteMessage id) w) as Hc. simpl in Hc.
  destruct (deleteMessage id w) as [[v|e] w']; simpl in *; eauto.
Qed.

Lemma fetchMessages_run (st : State) (w : World) :
  fetchMessages (st, w)
  = let st1 := with_error None (with_loadingMessages true st) in
    match getMessages w with
    | (Fulfilled data, w') =>
        match get_property data "messages" with
        | inr list =>
            (Fulfilled tt,
             (with_loadingMessages false (with_messages (or_else list (JsArray [])) st1), w'))
        | inl e =>
            (Fulfilled tt, (with_loadingMessages false (with_error (Some (message e)) st1), w'))
        end
    | (Rejected e, w') =>
        (Fulfilled tt, (with_loadingMessages false (with_error (Some (message e)) st1), w'))
    end.
Proof.
  unfold fetchMessages, setMessages, setError, setLoadingMessages, update, message_or; run.
  destruct (getMessages w) as [[data|e] w']; simpl; [|reflexivity].
  destruct (get_property data "messages"); reflexivity.
Qed.

Lemma without_id_spec (id : Z) (l : list JsValue) :
  exists kept,
    without_id id (JsArray l) = JsArray kept /\
    forall msg n,
      get_property msg "id" = inr (JsNumber n) ->
      (In msg kept <-> In msg l /\ n <> id).
Proof.
  eexists. split; [reflexivity|].
  intros msg n Hn. rewrite filter_In, Hn. simpl.
  rewrite negb_true_iff, Z.eqb_neq. reflexivity.
Qed.

(** C6 as stated fails: when the delete call fails, the message is still
    in the local list (nothing was removed, so there is nothing to roll
    back), and the error is shown. *)
Lemma failed_delete_keeps_the_message :
  fst (deleteMessage 7 Samples.signed_in)
  = Rejected (mkJsError PlainError "Message not found") /\
  exists w',
    handleDelete 7 (Samples.two_notes EmptyString, Samples.signed_in)
    = (Fulfilled tt,
       (with_error (Some "Message not found") (Samples.two_notes EmptyString), w')) /\
    messages (with_error (Some "Message not found") (Samples.two_notes EmptyString))
    = JsArray [Samples.note_8; Samples.note_7].
Proof. split; [reflexivity|]. eexists. split; reflexivity. Qed.

(** C6, amended. [handleDelete] awaits [deleteMessage(id)] first.  When
    that call succeeds, the messages whose [id] is the given one are
    removed from the local list, the rest is kept, and the list is not
    fetched again: [deleteMessage] is the only API operation invoked.
    When the call fails, the error's message is shown and the local list
    is left as it was. *)
Theorem handleDelete_removes_after_success (id : Z) (st : State) (w : World) :
  exists st' w',
    handleDelete id (st, w) = (Fulfilled tt, (st', w')) /\
    w' = snd (deleteMessage id w) /\
    called w' = (called w ++ [DeleteMessage id])%list /\
    ((exists v,
        fst (deleteMessage id w) = Fulfilled v /\
        st' = with_messages (without_id id (messages st)) st /\
        forall l, messages st = JsArray l ->
          exists kept,
            messages st' = JsArray kept /\
            forall msg n,
              get_property msg "id" = inr (JsNumber n) ->
              (In msg kept <-> In msg l /\ n <> id)) \/
     (exists e,
        fst (deleteMessage id w) = Rejected e /\
        st' = with_error (Some (message e)) st /\
        messages st' = messages st)).
Proof.
  rewrite handleDelete_run.
  pose proof (perform_called (DeleteMessage id) w) as Hc. simpl in Hc.
  destruct (deleteMessage id w) as [[v|e] w']; simpl in *.
  - do 2 eexists. split; [reflexivity|]. split; [reflexivity|]. split; [exact Hc|].
    left. exists v. split; [reflexivity|]. split; [reflexivity|].
    intros l Hl. simpl. rewrite Hl. apply without_id_spec.
  - do 2 eexists. split; [reflexivity|]. split; [reflexivity|]. split; [exact Hc|].
    right. exists e. repeat split.
Qed.

Example handleDelete_success :
  exists w',
    handleDelete 7
      (Samples.two_notes EmptyString,
       Samples.world_of (Some Samples.alice)
         (Samples.always (mkResponse 200 (inr (JsObject [("status", JsString "deleted")])))))
    = (Fulfilled tt,
       (with_messages (JsArray [Samples.note_8]) (Samples.two_notes EmptyString), w')) /\
    fetched w'
    = [ {| url := "http://localhost:8000/messages/7";
           init_method := "DELETE";
           init_headers := [("Content-Type", "application/json");
                            ("Authorization", "Bearer id.jwt")];
           init_body := None |} ].
Proof. eexists. split; reflexivity. Qed.

Lemma handleSubmit_run (st : State) (w : World) :
  handleSubmit (st, w)
  = if String.eqb (trim (text st)) EmptyString then (Fulfilled tt, (st, w))
    else
      let st1 := with_error None (with_loading true st) in
      match createMessage (text st) w with
      | (Fulfilled _, w1) =>
          match fetchMessages (with_text EmptyString st1, w1) with
          | (_, (st2, w2)) => (Fulfilled tt, (with_loading false st2, w2))
          end
      | (Rejected e, w1) =>
          (Fulfilled tt, (with_loading false (with_error (Some (message e)) st1), w1))
      end.
Proof.
  unfold handleSubmit, rendered, setText, setError, setLoading, update, message_or.
  unfold bind at 1. unfold gets at 1. simpl.
  destruct (String.eqb (trim (text st)) EmptyString); [reflexivity|].
  run.
  destruct (createMessage (text st) w) as [[v|e] w1]; simpl; [|reflexivity].
  rewrite fetchMessages_run. simpl.
  destruct (getMessages w1) as [[data|e] w2]; simpl; [|reflexivity].
  destruct (get_property data "messages"); reflexivity.
Qed.

Lemma getIdToken_with_fetched (l : list FetchCall) (w : World) :
  fst (getIdToken (with_fetched l w)) = fst (getIdToken w).
Proof.
  unfold getIdToken, getCurrentSession; run.
  destruct (currentUser w) as [u|]; [|reflexivity].
  destruct (getSession u) as [[e|] [s|]]; try reflexivity.
  destruct (isValid s); simpl; [|reflexivity].
  destruct (String.eqb _ _); reflexivity.
Qed.

(** A successful [createMessage] had a token, and left one call of [fetch]
    and its own mark behind. *)
Lemma createMessage_fulfilled (message : string) (w w1 : World) (v : JsValue) :
  createMessage message w = (Fulfilled v, w1) ->
  exists token call,
    fst (getIdToken w) = Fulfilled (Some token) /\
    w1 = with_fetched (fetched w ++ [call])
           (with_called (called w ++ [CreateMessage message]) w).
Proof.
  change (createMessage message w) with (perform (CreateMessage message) w).
  rewrite perform_unfold. intros H.
  destruct (getIdToken_resolves w) as [[token|] Ht].
  - assert (fst (getIdToken w) = Fulfilled (Some token)) as Hf by (rewrite Ht; reflexivity).
    exists token. eexists. split; [exact Hf|].
    apply (f_equal snd) in H. simpl in H. rewrite <- H.
    rewrite (request_with_token _ _ _ token) by
      (simpl; auto; rewrite getIdToken_with_called; exact Hf).
    rewrite request_after_fetch by (intros; apply respond_pure).
    reflexivity.
  - rewrite request_signed_out in H;
      [discriminate | simpl; auto
      | rewrite getIdToken_with_called, Ht; reflexivity].
Qed.

(** What [getMessages] does with a token at hand: one GET, and it resolves
    exactly with the JSON body of a 2xx answer to that GET. *)
Lemma getMessages_answer (w : World) (token : string) :
  fst (getIdToken w) = Fulfilled (Some token) ->
  snd (getMessages w)
  = with_fetched
      (fetched w ++ [ {| url := API_BASE_URL w +:+ "/messages";
                         init_method := "GET";
                         init_headers := [("Content-Type", "application/json");
                                          ("Authorization", "Bearer " +:+ token)];
                         init_body := None |} ])
      (with_called (called w ++ [GetMessages]) w) /\
  forall data,
    fst (getMessages w) = Fulfilled data <->
    exists r,
      network w (fetched w)
        {| url := API_BASE_URL w +:+ "/messages";
           init_method := "GET";
           init_headers := [("Content-Type", "application/json");
                            ("Authorization", "Bearer " +:+ token)];
           init_body := None |} = Fulfilled r /\
      ok r = true /\ json r = inr data.
Proof.
  intros Htok.
  change (getMessages w) with (perform GetMessages w).
  rewrite perform_unfold.
  rewrite (request_with_token _ _ _ token) by
    (simpl; auto; rewrite getIdToken_with_called; exact Htok).
  split.
  - rewrite request_after_fetch by (intros; apply respond_pure). reflexivity.
  - intros data. unfold bind at 1. unfold fetch, fetch_call. simpl.
    destruct (network w (fetched w) _) as [r|e]; simpl.
    2:{ split; [discriminate | intros (r & H & _); discriminate]. }
    unfold Response_json. destruct (ok r) eqn:Hok; run.
    + destruct (json r) as [e|v] eqn:Hj; simpl.
      * split; [discriminate|]. intros (r' & [= <-] & _ & H). congruence.
      * split.
        -- intros [= ->]. exists r. auto.
        -- intros (r' & [= <-] & _ & H). congruence.
    + split.
      * destruct (json r) as [e|v]; simpl; [discriminate|].
        destruct (get_property v "detail"); discriminate.
      * intros (r' & [= <-] & H & _). congruence.
Qed.

(** C7. When [createMessage] succeeds in [handleSubmit], the handler
    clears the input and fetches the list again: it issues a GET to
    [/messages] with the bearer token, right after the call of
    [createMessage].  When the server answers that GET with a 2xx response
    whose JSON body has the list under [messages], the list shown
    afterwards is that list (the empty list if the field is empty or
    missing).  In every case the list shown is either that of the server's
    answer or the one shown before: what [createMessage] returned is never
    added locally. *)
Theorem handleSubmit_refetches (st : State) (w w1 : World) (created : JsValue) :
  trim (text st) <> EmptyString ->
  createMessage (text st) w = (Fulfilled created, w1) ->
  exists st' w2 token,
    let GET := {| url := API_BASE_URL w +:+ "/messages";
                  init_method := "GET";
                  init_headers := [("Content-Type", "application/json");
                                   ("Authorization", "Bearer " +:+ token)];
                  init_body := None |} in
    handleSubmit (st, w) = (Fulfilled tt, (st', w2)) /\
    fetched w2 = (fetched w1 ++ [GET])%list /\
    called w2 = (called w ++ [CreateMessage (text st); GetMessages])%list /\
    text st' = EmptyString /\
    loading st' = false /\
    (forall r data list,
       network w (fetched w1) GET = Fulfilled r ->
       200 <= status r <= 299 ->
       json r = inr data ->
       get_property data "messages" = inr list ->
       messages st' = or_else list (JsArray []) /\ error st' = None) /\
    (messages st' = messages st \/
     exists r data list,
       network w (fetched w1) GET = Fulfilled r /\
       200 <= status r <= 299 /\
       json r = inr data /\
       get_property data "messages" = inr list /\
       messages st' = or_else list (JsArray [])).
Proof.
  intros Htext Hcreate.
  destruct (createMessage_fulfilled _ _ _ _ Hcreate) as (token & post & Htok & Hw1).
  assert (fst (getIdToken w1) = Fulfilled (Some token)) as Htok1.
  { rewrite Hw1, getIdToken_with_fetched, getIdToken_with_called. exact Htok. }
  destruct (getMessages_answer w1 token Htok1) as [Hsnd Hfst].
  assert (API_BASE_URL w1 = API_BASE_URL w) as Hbase by (rewrite Hw1; reflexivity).
  assert (network w1 = network w) as Hnet by (rewrite Hw1; reflexivity).
  assert (called w1 = (called w ++ [CreateMessage (text st)])%list) as Hcalled
    by (rewrite Hw1; reflexivity).
  rewrite Hbase in Hsnd, Hfst. rewrite Hnet in Hfst.
  rewrite handleSubmit_run.
  destruct (String.eqb_spec (trim (text st)) EmptyString) as [E|_]; [contradiction|].
  simpl. rewrite Hcreate, fetchMessages_run. simpl.
  destruct (getMessages w1) as [[data|e] w2] eqn:Hget; simpl in *.
  - assert (exists r,
              network w (fetched w1)
                {| url := API_BASE_URL w +:+ "/messages";
                   init_method := "GET";
                   init_headers := [("Content-Type", "application/json");
                                    ("Authorization", "Bearer " +:+ token)];
                   init_body := None |} = Fulfilled r /\
              ok r = true /\ json r = inr data) as (r0 & Hr0 & Hok0 & Hj0)
      by (apply Hfst; reflexivity).
    destruct (get_property data "messages") as [e|list] eqn:Hm.
    + do 2 eexists. exists token. cbv zeta.
      split; [reflexivity|]. split; [rewrite Hsnd; reflexivity|].
      split; [rewrite Hsnd; simpl; rewrite Hcalled, <- app_assoc; reflexivity|].
      split; [reflexivity|]. split; [reflexivity|]. split; [|left; reflexivity].
      intros r data' list' Hr _ Hj Hm'. rewrite Hr0 in Hr. injection Hr as <-.
      rewrite Hj0 in Hj. injection Hj as <-. congruence.
    + do 2 eexists. exists token. cbv zeta.
      split; [reflexivity|]. split; [rewrite Hsnd; reflexivity|].
      split; [rewrite Hsnd; simpl; rewrite Hcalled, <- app_assoc; reflexivity|].
      split; [reflexivity|]. split; [reflexivity|]. split.
      * intros r data' list' Hr _ Hj Hm'. rewrite Hr0 in Hr. injection Hr as <-.
        rewrite Hj0 in Hj. injection Hj as <-. rewrite Hm in Hm'. injection Hm' as <-.
        split; reflexivity.
      * right. exists r0, data, list. apply ok_2xx in Hok0. auto.
  - do 2 eexists. exists token. cbv zeta.
    split; [reflexivity|]. split; [rewrite Hsnd; reflexivity|].
    split; [rewrite Hsnd; simpl; rewrite Hcalled, <- app_assoc; reflexivity|].
    split; [reflexivity|]. split; [reflexivity|]. split; [|left; reflexivity].
    intros r data list Hr Hs Hj Hm.
    assert (Rejected e = Fulfilled data) as Habs; [|discriminate].
    apply Hfst. exists r. apply ok_2xx in Hs. auto.
Qed.

Lemma handleSubmit_refetches_witness :
  exists st' w2,
    handleSubmit (Samples.one_note "  bench ", Samples.signed_in)
    = (Fulfilled tt, (st', w2)) /\
    messages (Samples.one_note "  bench ") = JsArray [Samples.note_7] /\
    messages st' = JsArray [Samples.note_8; Samples.note_7].
Proof.
  destruct (handleSubmit_refetches (Samples.one_note "  bench ") Samples.signed_in
              (snd (createMessage "  bench " Samples.signed_in)) Samples.note_8)
    as (st' & w2 & token & Hrun & _ & _ & _ & _ & Hserver & _).
  - discriminate.
  - reflexivity.
  - exists st', w2. split; [exact Hrun|]. split; [reflexivity|].
    apply (Hserver
             (mkResponse 200
                (inr (JsObject [("messages", JsArray [Samples.note_8; Samples.note_7])])))
             (JsObject [("messages", JsArray [Samples.note_8; Samples.note_7])])
             (JsArray [Samples.note_8; Samples.note_7]));
      [reflexivity | simpl; lia | reflexivity | reflexivity].
Defined.

(** C10. When the text is empty after trimming, [handleSubmit] returns at
    once: [createMessage] is not invoked, nothing is fetched, and the
    list, the loading flag and the error are what they were. *)
Theorem handleSubmit_blank (st : State) (w : World) :
  trim (text st) = EmptyString ->
  handleSubmit (st, w) = (Fulfilled tt, (st, w)) /\
  called (snd (snd (handleSubmit (st, w)))) = called w /\
  fetched (snd (snd (handleSubmit (st, w)))) = fetched w /\
  messages (fst (snd (handleSubmit (st, w)))) = messages st /\
  loading (fst (snd (handleSubmit (st, w)))) = loading st /\
  error (fst (snd (handleSubmit (st, w)))) = error st.
Proof.
  intros Hblank.
  assert (handleSubmit (st, w) = (Fulfilled tt, (st, w))) as ->.
  { rewrite handleSubmit_run, Hblank. reflexivity. }
  repeat split.
Qed.

Lemma handleSubmit_blank_witness :
  handleSubmit (Samples.two_notes "   ", Samples.signed_in)
  = (Fulfilled tt, (Samples.two_notes "   ", Samples.signed_in)).
Proof.
  apply (handleSubmit_blank (Samples.two_notes "   ") Samples.signed_in).
  reflexivity.
Defined.

Lemma handleSwipeEnd_run (id : Z) (st : State) (w : World) :
  handleSwipeEnd id (st, w)
  = if (offset_of id st <? -100)%Z then
      match handleDelete id (st, w) with
      | (_, (st', w')) =>
          (Fulfilled tt,
           (with_swiping None (with_swipeOffset (<[id := 0%Z]> (swipeOffset st')) st'), w'))
      end
    else
      (Fulfilled tt,
       (with_swiping None (with_swipeOffset (<[id := 0%Z]> (swipeOffset st)) st), w)).
Proof.
  unfold handleSwipeEnd, rendered, setSwipeOffset, setSwiping, update.
  unfold bind at 1. unfold gets at 1. simpl.
  destruct (offset_of id st <? -100)%Z.
  - run. rewrite !handleDelete_run.
    destruct (deleteMessage id w) as [[v|e] w']; reflexivity.
  - reflexivity.
Qed.

(** X16. The promise of [handleDelete] is not awaited, so the two setters
    of [handleSwipeEnd] run before it settles: the state and the world
    reached are the same as when the delete is run to its end first. *)
Lemma handleSwipeEnd_setters_first (id : Z) (st : State) (w : World) :
  handleSwipeEnd id (st, w)
  = (offset <- rendered (offset_of id) ;;
     setSwipeOffset (fun prev => <[id := 0%Z]> prev) ;;
     setSwiping None ;;
     (if (offset <? -100)%Z then handleDelete id else ret tt)) (st, w).
Proof.
  rewrite handleSwipeEnd_run.
  unfold rendered, setSwipeOffset, setSwiping, update.
  unfold bind at 1. unfold gets at 1. simpl.
  destruct (offset_of id st <? -100)%Z.
  - run. rewrite !handleDelete_run.
    destruct (deleteMessage id w) as [[v|e] w']; reflexivity.
  - reflexivity.
Qed.

(** C9. Releasing a swipe on message [id] invokes [deleteMessage(id)]
    exactly when the offset stored for [id] is below -100: with a stored
    offset of -100 or more, or with none stored, nothing is invoked and
    the world, the list and the error are left as they were.  Either way
    the offset of [id] is 0 and no swipe is in progress afterwards. *)
Theorem handleSwipeEnd_threshold (id : Z) (st : State) (w : World) :
  exists st' w',
    handleSwipeEnd id (st, w) = (Fulfilled tt, (st', w')) /\
    swipeOffset st' !! id = Some 0 /\
    swiping st' = None /\
    ((exists x,
        swipeOffset st !! id = Some x /\
        x < -100 /\
        w' = snd (deleteMessage id w) /\
        called w' = (called w ++ [DeleteMessage id])%list) \/
     ((swipeOffset st !! id = None \/
       exists x, swipeOffset st !! id = Some x /\ -100 <= x) /\
      w' = w /\
      called w' = called w /\
      messages st' = messages st /\
      error st' = error st)).
Proof.
  rewrite handleSwipeEnd_run. unfold offset_of.
  destruct (swipeOffset st !! id) as [x|] eqn:Hx; simpl.
  - destruct (Z.ltb_spec x (-100)) as [Hlt | Hge].
    + destruct (handleDelete_settles id st w) as (st1 & Hrun & Hcalled).
      rewrite Hrun. do 2 eexists. split; [reflexivity|].
      split; [apply lookup_insert_eq|]. split; [reflexivity|].
      left. exists x. auto.
    + do 2 eexists. split; [reflexivity|].
      split; [apply lookup_insert_eq|]. split; [reflexivity|].
      right. split; [right; exists x; auto|]. auto.
  - do 2 eexists. split; [reflexivity|].
    split; [apply lookup_insert_eq|]. split; [reflexivity|].
    right. split; [left; reflexivity|]. auto.
Qed.

Lemma handleSwipeEnd_threshold_witness :
  (exists st',
     handleSwipeEnd 7 (Samples.swiped (-100), Samples.signed_in)
     = (Fulfilled tt, (st', Samples.signed_in)) /\
     swipeOffset st' !! 7 = Some 0) /\
  (exists st' w',
     handleSwipeEnd 7 (Samples.swiped (-101), Samples.signed_in)
     = (Fulfilled tt, (st', w')) /\
     called w' = [DeleteMessage 7]).
Proof.
  split.
  - destruct (handleSwipeEnd_threshold 7 (Samples.swiped (-100)) Samples.signed_in)
      as (st' & w' & Hrun & Hoff & _ & [(x & Hx & Hlt & _) | (_ & Hw & _)]).
    + vm_compute in Hx. injection Hx as <-. lia.
    + subst w'. exists st'. split; assumption.
  - destruct (handleSwipeEnd_threshold 7 (Samples.swiped (-101)) Samples.signed_in)
      as (st' & w' & Hrun & _ & _ & [(x & _ & _ & _ & Hcalled) | ([Hnone | (x & Hx & Hge)] & _)]).
    + exists st', w'. split; [exact Hrun | exact Hcalled].
    + vm_compute in Hnone. discriminate.
    + vm_compute in Hx. injection Hx as <-. lia.
Defined.

Example release_at_threshold :
  called (snd (snd (handleSwipeEnd 7 (Samples.swiped (-100), Samples.signed_in)))) = [] /\
  fetched (snd (snd (handleSwipeEnd 7 (Samples.swiped (-100), Samples.signed_in)))) = [] /\
  swipeOffset (fst (snd (handleSwipeEnd 7 (Samples.swiped (-100), Samples.signed_in)))) !! 7
  = Some 0.
Proof. repeat split; vm_compute; reflexivity. Qed.

Example release_below_threshold :
  called (snd (snd (handleSwipeEnd 7 (Samples.swiped (-101), Samples.signed_in))))
  = [DeleteMessage 7] /\
  swiping (fst (snd (handleSwipeEnd 7 (Samples.swiped (-101), Samples.signed_in)))) = None /\
  swipeOffset (fst (snd (handleSwipeEnd 7 (Samples.swiped (-101), Samples.signed_in)))) !! 7
  = Some 0.
Proof. repeat split; vm_compute; reflexivity. Qed.

(** A drag to the right never produces a positive offset. *)
Lemma handleSwipeMove_offset (id clientX : Z) (st : State) (w : World) :
  swiping st = Some id ->
  exists st',
    handleSwipeMove id clientX (st, w) = (Fulfilled tt, (st', w)) /\
    swipeOffset st' !! id = Some (Z.min 0 (clientX - startX st)) /\
    offset_of id st' <= 0.
Proof.
  intros Hs.
  unfold handleSwipeMove, rendered, setSwipeOffset, update, is_swiping; run.
  rewrite Hs, Z.eqb_refl. simpl.
  eexists. split; [reflexivity|].
  unfold offset_of. simpl. rewrite lookup_insert_eq. simpl. split; [reflexivity | lia].
Qed.

(* ================================================================= *)
(** ** More on the session manager and the API client *)

(** X1. [getIdToken] never rejects.  It resolves to a token exactly when
    the store has a cached user whose [getSession] reports no error and a
    valid session with a non-empty identity token, and then to that token;
    otherwise it resolves to [null]. *)
Theorem getIdToken_characterized (w : World) :
  exists r,
    fst (getIdToken w) = Fulfilled r /\
    forall t,
      r = Some t <->
      t <> EmptyString /\
      exists u session,
        currentUser w = Some u /\
        getSession u = (None, Some session) /\
        isValid session = true /\
        getIdToken_getJwtToken session = t.
Proof.
  unfold getIdToken, getCurrentSession; run.
  destruct (currentUser w) as [u|] eqn:Hu; simpl.
  2:{ eexists. split; [reflexivity|]. intros t. split; [discriminate|].
      intros (_ & u & s & H & _). discriminate. }
  destruct (getSession u) as [err session] eqn:Hs.
  assert (forall t : string,
            (t <> EmptyString /\
             exists u' s, Some u = Some u' /\ getSession u' = (None, Some s) /\
                          isValid s = true /\ getIdToken_getJwtToken s = t) ->
            err = None /\ exists s, session = Some s /\ isValid s = true /\
                                    getIdToken_getJwtToken s = t /\ t <> EmptyString) as Hinv.
  { intros t (Hne & u' & s & [= <-] & Hg & Hv & Ht). rewrite Hs in Hg.
    injection Hg as -> ->. eauto 6. }
  destruct err as [e|]; [|destruct session as [s|]]; simpl.
  - eexists. split; [reflexivity|]. intros t. split; [discriminate|].
    intros H. apply Hinv in H as [H _]. discriminate.
  - destruct (isValid s) eqn:Hv; simpl.
    + destruct (String.eqb_spec (getIdToken_getJwtToken s) EmptyString) as [He|He]; simpl.
      * eexists. split; [reflexivity|]. intros t. split; [discriminate|].
        intros H. apply Hinv in H as (_ & s' & [= <-] & _ & <- & Hne). contradiction.
      * eexists. split; [reflexivity|]. intros t. split.
        -- intros [= <-]. split; [exact He|]. exists u, s. auto.
        -- intros H. apply Hinv in H as (_ & s' & [= <-] & _ & <- & _). reflexivity.
    + eexists. split; [reflexivity|]. intros t. split; [discriminate|].
      intros H. apply Hinv in H as (_ & s' & [= <-] & Hv' & _). congruence.
  - eexists. split; [reflexivity|]. intros t. split; [discriminate|].
    intros H. apply Hinv in H as (_ & s' & H & _). discriminate.
Qed.

Lemma with_fetched_same (w : World) : with_fetched (fetched w ++ []) w = w.
Proof. destruct w. unfold with_fetched. simpl. rewrite app_nil_r. reflexivity. Qed.

(** The calls of [fetch] that one call of [request] adds to the log. *)
Lemma request_calls (endpoint : string) (options : RequestOptions)
    (w : World) :
  exists calls,
    (length calls <= 1)%nat /\
    snd (request endpoint options w) = with_fetched (fetched w ++ calls) w /\
    Forall (fun call =>
              url call = API_BASE_URL w +:+ endpoint /\
              init_method call = default "GET" (method options) /\
              init_body call = (if ToBoolean (body options)
                                then JSON_stringify (body options) else None) /\
              exists more,
                init_headers call = ("Content-Type", "application/json") :: more) calls.
Proof.
  destruct (getIdToken_resolves w) as [t Ht].
  assert (fst (getIdToken w) = Fulfilled t) as Hf by (rewrite Ht; reflexivity).
  assert (forall headers,
            exists calls,
              (length calls <= 1)%nat /\
              with_fetched (fetched w ++ [fetch_call w endpoint options headers]) w
              = with_fetched (fetched w ++ calls) w /\
              (forall more, headers = ("Content-Type", "application/json") :: more ->
               Forall (fun call =>
                         url call = API_BASE_URL w +:+ endpoint /\
                         init_method call = default "GET" (method options) /\
                         init_body call = (if ToBoolean (body options)
                                           then JSON_stringify (body options) else None) /\
                         exists more,
                           init_headers call = ("Content-Type", "application/json") :: more)
                 calls)) as Hone.
  { intros headers. eexists [_]. split; [simpl; lia|]. split; [reflexivity|].
    intros more ->. constructor; [|constructor]. simpl. eauto 6. }
  assert (exists calls,
            (length calls <= 1)%nat /\
            w = with_fetched (fetched w ++ calls) w /\
            Forall (fun call =>
                      url call = API_BASE_URL w +:+ endpoint /\
                      init_method call = default "GET" (method options) /\
                      init_body call = (if ToBoolean (body options)
                                        then JSON_stringify (body options) else None) /\
                      exists more,
                        init_headers call = ("Content-Type", "application/json") :: more)
              calls) as Hnone.
  { exists []. split; [simpl; lia|]. split; [symmetry; apply with_fetched_same | constructor]. }
  destruct (requireAuth options) as [[|]|] eqn:Hr.
  2:{ rewrite request_without_auth by exact Hr.
      rewrite request_after_fetch by (intros; apply respond_pure).
      destruct (Hone [("Content-Type", "application/json")]) as (calls & ? & ? & Hall).
      exists calls. eauto. }
  all: destruct t as [token|];
    [ rewrite (request_with_token _ _ _ token) by auto;
      rewrite request_after_fetch by (intros; apply respond_pure);
      destruct (Hone [("Content-Type", "application/json");
                      ("Authorization", "Bearer " +:+ token)]) as (calls & ? & ? & Hall);
      exists calls; eauto
    | rewrite request_signed_out by auto; apply Hnone ].
Qed.

(** X2. One call of [request] reaches its own call of [fetch] at most
    once.  That call, if any, goes to the base URL followed by the
    endpoint, with the given method ([GET] when none is given) and
    [Content-Type: application/json] as its first header. *)
Theorem request_fetches_at_most_once (endpoint : string) (options : RequestOptions)
    (w : World) :
  exists calls,
    (length calls <= 1)%nat /\
    fetched (snd (request endpoint options w)) = (fetched w ++ calls)%list /\
    Forall (fun call =>
              url call = API_BASE_URL w +:+ endpoint /\
              init_method call = default "GET" (method options) /\
              exists more,
                init_headers call = ("Content-Type", "application/json") :: more) calls.
Proof.
  destruct (request_calls endpoint options w) as (calls & Hlen & Hsnd & Hall).
  exists calls. split; [exact Hlen|]. split; [rewrite Hsnd; reflexivity|].
  revert Hall. apply List.Forall_impl. intros call (Hurl & Hmethod & _ & Hheaders). auto.
Qed.

(** X3. When [fetch] itself rejects (the network is down), [request]
    rejects with that very error: it is not replaced by "Request failed",
    and the one call made stays on record. *)
Theorem request_network_failure (endpoint : string) (options : RequestOptions)
    (w : World) (e : JsError) :
  requireAuth options = Some false \/
  (exists token, fst (getIdToken w) = Fulfilled (Some token)) ->
  (forall call, network w (fetched w) call = Rejected e) ->
  fst (request endpoint options w) = Rejected e /\
  length (fetched (snd (request endpoint options w))) = S (length (fetched w)).
Proof.
  intros Hauth Hnet.
  assert (exists headers,
            request endpoint options w
            = bind (fetch (fetch_call w endpoint options headers))
                (fun response =>
                   if negb (ok response) then
                     error <- try_catch (Response_json response)
                                (fun _ => ret (JsObject [("detail", JsString "Request failed")])) ;;
                     detail <- of_result (get_property error "detail") ;;
                     throw (new_Error (or_else detail (JsString "Request failed")))
                   else Response_json response) w) as [headers ->].
  { destruct Hauth as [Hf | [token Htok]].
    - eexists. apply request_without_auth. exact Hf.
    - destruct (requireAuth options) as [[|]|] eqn:Hr.
      + eexists. apply (request_with_token _ _ _ token); auto.
      + eexists. apply request_without_auth. exact Hr.
      + eexists. apply (request_with_token _ _ _ token); auto. }
  split.
  - unfold bind at 1. unfold fetch. rewrite Hnet. reflexivity.
  - rewrite request_after_fetch by (intros; apply respond_pure).
    simpl. rewrite length_app. simpl. lia.
Qed.

Lemma request_network_failure_witness :
  fst (request "/messages"
         {| method := None; body := JsUndefined; requireAuth := None |}
         (Samples.world_of (Some Samples.alice)
            (fun _ _ => Rejected (mkJsError TypeError "Failed to fetch"))))
  = Rejected (mkJsError TypeError "Failed to fetch").
Proof.
  apply (request_network_failure "/messages"
           {| method := None; body := JsUndefined; requireAuth := None |}
           (Samples.world_of (Some Samples.alice)
              (fun _ _ => Rejected (mkJsError TypeError "Failed to fetch")))
           (mkJsError TypeError "Failed to fetch")
           (or_intror (ex_intro _ "id.jwt" eq_refl)) (fun _ => eq_refl)).
Defined.

(** X4. [healthCheck] does not look at the credential store: whoever is
    signed in, or nobody, it settles the same way and issues the same
    call, whose only header is [Content-Type]. *)
Theorem healthCheck_ignores_session (u : option CognitoUser) (w : World) :
  healthCheck (with_currentUser u w)
  = (fst (healthCheck w), with_currentUser u (snd (healthCheck w))) /\
  fetched (snd (healthCheck w))
  = (fetched w ++ [ {| url := API_BASE_URL w +:+ "/";
                       init_method := "GET";
                       init_headers := [("Content-Type", "application/json")];
                       init_body := None |} ])%list.
Proof.
  split.
  - change healthCheck with (perform HealthCheck).
    rewrite !perform_unfold. rewrite !request_without_auth by reflexivity.
    unfold bind, fetch. simpl.
    destruct (network w (fetched w) _) as [r|e]; [|reflexivity].
    unfold Response_json. destruct (negb (ok r)); run.
    + destruct (json r) as [e|v]; simpl; [reflexivity|].
      destruct (get_property v "detail"); reflexivity.
    + destruct (json r); reflexivity.
  - change healthCheck with (perform HealthCheck).
    rewrite perform_unfold. rewrite request_without_auth by reflexivity.
    rewrite request_after_fetch by (intros; apply respond_pure). reflexivity.
Qed.

(** X5. The base URL is never empty: an environment variable that is unset
    or set to the empty string gives [http://localhost:8000], any other
    value is taken as it is. *)
Theorem API_BASE_URL_fallback (w : World) :
  String.eqb (API_BASE_URL w) EmptyString = false /\
  (NEXT_PUBLIC_API_URL w = Some (API_BASE_URL w) \/
   (API_BASE_URL w = "http://localhost:8000" /\
    (NEXT_PUBLIC_API_URL w = None \/ NEXT_PUBLIC_API_URL w = Some EmptyString))).
Proof.
  unfold API_BASE_URL.
  destruct (NEXT_PUBLIC_API_URL w) as [u|]; [|split; [reflexivity | right; auto]].
  destruct (String.eqb_spec u EmptyString) as [-> | Hne].
  - split; [reflexivity | right; auto].
  - split; [|left; reflexivity].
    destruct (String.eqb_spec u EmptyString); [contradiction | reflexivity].
Qed.

(* ================================================================= *)
(** ** More on the home page *)

Lemma request_pushed (endpoint : string) (options : RequestOptions) (w : World) :
  pushed (snd (request endpoint options w)) = pushed w.
Proof.
  destruct (request_world endpoint options w) as [-> | [call ->]]; reflexivity.
Qed.

Lemma perform_pushed (c : ApiCall) (w : World) : pushed (snd (perform c w)) = pushed w.
Proof. rewrite perform_unfold, request_pushed. reflexivity. Qed.

Lemma fetchMessages_settles (st : State) (w : World) :
  exists st',
    fetchMessages (st, w) = (Fulfilled tt, (st', snd (getMessages w))) /\
    called (snd (getMessages w)) = (called w ++ [GetMessages])%list /\
    pushed (snd (getMessages w)) = pushed w /\
    user st' = user st /\ isAuthenticated st' = isAuthenticated st.
Proof.
  rewrite fetchMessages_run.
  pose proof (perform_called GetMessages w) as Hc. simpl in Hc.
  pose proof (perform_pushed GetMessages w) as Hp. simpl in Hp.
  destruct (getMessages w) as [[data|e] w']; simpl in *.
  - destruct (get_property data "messages"); eexists; repeat split; eauto.
  - eexists; repeat split; eauto.
Qed.

(** X6. [fetchMessages] never rejects.  It calls [getMessages] once and
    ends with [loadingMessages] off.  On success the error is cleared and
    the list becomes the [messages] of the body (the empty list when it
    has none); on failure, or when the body is [null], the list is kept
    and the error's message is shown.  The text, the user and the loading
    flag of the form are not touched. *)
Theorem fetchMessages_never_rejects (st : State) (w : World) :
  exists st',
    fetchMessages (st, w) = (Fulfilled tt, (st', snd (getMessages w))) /\
    called (snd (getMessages w)) = (called w ++ [GetMessages])%list /\
    loadingMessages st' = false /\
    text st' = text st /\ user st' = user st /\ loading st' = loading st /\
    ((exists data list,
        fst (getMessages w) = Fulfilled data /\
        get_property data "messages" = inr list /\
        messages st' = or_else list (JsArray []) /\
        error st' = None) \/
     (exists e,
        (fst (getMessages w) = Rejected e \/
         exists data, fst (getMessages w) = Fulfilled data /\
                      get_property data "messages" = inl e) /\
        messages st' = messages st /\
        error st' = Some (message e))).
Proof.
  rewrite fetchMessages_run.
  pose proof (perform_called GetMessages w) as Hc. simpl in Hc.
  destruct (getMessages w) as [[data|e] w']; simpl in *.
  - destruct (get_property data "messages") as [e|list] eqn:Hm.
    + eexists. split; [reflexivity|]. split; [exact Hc|]. repeat split.
      right. exists e. split; [|split; reflexivity].
      right. exists data. split; [reflexivity | exact Hm].
    + eexists. split; [reflexivity|]. split; [exact Hc|]. repeat split.
      left. exists data, list. repeat split. exact Hm.
  - eexists. split; [reflexivity|]. split; [exact Hc|]. repeat split.
    right. exists e. split; [left; reflexivity|]. split; reflexivity.
Qed.

(** X7. When [createMessage] fails in [handleSubmit], the typed text is
    kept, the list is left as it was, [getMessages] is not called, the
    error's message is shown and the loading flag is off again. *)
Theorem handleSubmit_create_fails (st : State) (w w1 : World) (e : JsError) :
  trim (text st) <> EmptyString ->
  createMessage (text st) w = (Rejected e, w1) ->
  handleSubmit (st, w)
  = (Fulfilled tt, (with_loading false (with_error (Some (message e)) st), w1)) /\
  called w1 = (called w ++ [CreateMessage (text st)])%list.
Proof.
  intros Htext Hcreate.
  rewrite handleSubmit_run.
  destruct (String.eqb_spec (trim (text st)) EmptyString) as [E|_]; [contradiction|].
  simpl. rewrite Hcreate. split; [reflexivity|].
  pose proof (perform_called (CreateMessage (text st)) w) as Hc. simpl in Hc.
  rewrite Hcreate in Hc. exact Hc.
Qed.

Lemma handleSubmit_create_fails_witness :
  handleSubmit (Samples.two_notes "bench", Samples.world_of (Some Samples.expired) Samples.notes_server)
  = (Fulfilled tt,
     (with_loading false (with_error (Some "Not authenticated") (Samples.two_notes "bench")),
      with_called [CreateMessage "bench"]
        (Samples.world_of (Some Samples.expired) Samples.notes_server))).
Proof.
  apply (handleSubmit_create_fails (Samples.two_notes "bench")
           (Samples.world_of (Some Samples.expired) Samples.notes_server)
           (with_called [CreateMessage "bench"]
              (Samples.world_of (Some Samples.expired) Samples.notes_server))
           (mkJsError PlainError "Not authenticated")).
  - discriminate.
  - reflexivity.
Defined.

Lemma trimEnd_keeps (c : ascii) (rest : string) :
  is_white_space c = false -> String.eqb (trimEnd (String c rest)) EmptyString = false.
Proof.
  intros Hc. simpl. destruct (trimEnd rest); [rewrite Hc|]; reflexivity.
Qed.

Lemma trim_blank (s : string) :
  String.eqb (trim s) EmptyString = forallb is_white_space (list_ascii_of_string s).
Proof.
  unfold trim. induction s as [|c rest IH]; [reflexivity|].
  simpl. destruct (is_white_space c) eqn:Hc; simpl.
  - exact IH.
  - pose proof (trimEnd_keeps c rest Hc) as H. simpl in H. exact H.
Qed.

(** X8. [handleSubmit] never rejects, and returns without doing anything
    exactly when every character of the text is white space.  Otherwise it
    calls [createMessage] first, with the text as typed (not trimmed), and
    the loading flag is off when it is done. *)
Theorem handleSubmit_skips_only_blank (st : State) (w : World) :
  exists st' w',
    handleSubmit (st, w) = (Fulfilled tt, (st', w')) /\
    if forallb is_white_space (list_ascii_of_string (text st))
    then st' = st /\ w' = w
    else loading st' = false /\
         exists more, called w' = (called w ++ CreateMessage (text st) :: more)%list.
Proof.
  rewrite handleSubmit_run, trim_blank.
  destruct (forallb is_white_space (list_ascii_of_string (text st))).
  - do 2 eexists. split; [reflexivity|]. split; reflexivity.
  - simpl.
    pose proof (perform_called (CreateMessage (text st)) w) as Hc. simpl in Hc.
    destruct (createMessage (text st) w) as [[v|e] w1]; simpl in *.
    + destruct (fetchMessages_settles
                  (with_text EmptyString (with_error None (with_loading true st))) w1)
        as (st2 & Hrun & Hcalled & _).
      rewrite Hrun. do 2 eexists. split; [reflexivity|]. split; [reflexivity|].
      exists [GetMessages]. rewrite Hcalled, Hc, <- app_assoc. reflexivity.
    + do 2 eexists. split; [reflexivity|]. split; [reflexivity|].
      exists []. exact Hc.
Qed.

Lemma checkAuth_run (st : State) (w : World) :
  checkAuth (st, w)
  = match fst (getCurrentSession w) with
    | Fulfilled None => (Fulfilled tt, (st, with_pushed (pushed w ++ ["/login"]) w))
    | Fulfilled (Some _) =>
        let st1 := with_isAuthenticated (Some true) st in
        match getMe w with
        | (Fulfilled userInfo, w1) => fetchMessages (with_user userInfo st1, w1)
        | (Rejected _, w1) =>
            (Fulfilled tt, (with_error (Some "Failed to load user info") st1, w1))
        end
    | Rejected e => (Rejected e, (st, w))
    end.
Proof.
  unfold checkAuth, setIsAuthenticated, setUser, setError, update.
  unfold bind at 1. unfold lift at 1. simpl.
  destruct (getCurrentSession_resolves w) as [r ->]. simpl.
  destruct r as [tokens|]; [|reflexivity].
  run.
  destruct (getMe w) as [[info|e] w1]; simpl; [|reflexivity].
  destruct (fetchMessages_settles
              (with_user info (with_isAuthenticated (Some true) st)) w1) as (st' & -> & _).
  reflexivity.
Qed.

(** X9. Without a session [checkAuth] sends the browser to [/login] and
    does nothing else: no API operation is invoked, nothing is fetched,
    and the page state (so [isAuthenticated] too) is left as it was. *)
Theorem checkAuth_redirects (st : State) (w : World) :
  fst (getCurrentSession w) = Fulfilled None ->
  checkAuth (st, w) = (Fulfilled tt, (st, with_pushed (pushed w ++ ["/login"]) w)).
Proof. intros H. rewrite checkAuth_run, H. reflexivity. Qed.

Lemma checkAuth_redirects_witness :
  checkAuth (initial, Samples.world_of (Some Samples.expired) Samples.notes_server)
  = (Fulfilled tt,
     (initial, with_pushed ["/login"]
                 (Samples.world_of (Some Samples.expired) Samples.notes_server))).
Proof.
  apply (checkAuth_redirects initial
           (Samples.world_of (Some Samples.expired) Samples.notes_server)).
  reflexivity.
Defined.

(** X10. With a session [checkAuth] never rejects and never navigates; it
    marks the page authenticated and calls [getMe].  If [getMe] fails, the
    fixed text "Failed to load user info" is shown (not the error's own
    message), the user and the list are left as they were and
    [getMessages] is not called.  If [getMe] succeeds, its result becomes
    the user and the list is fetched next. *)
Theorem checkAuth_loads (st : State) (w : World) (tokens : AuthTokens) :
  fst (getCurrentSession w) = Fulfilled (Some tokens) ->
  exists st' w',
    checkAuth (st, w) = (Fulfilled tt, (st', w')) /\
    isAuthenticated st' = Some true /\
    pushed w' = pushed w /\
    ((exists e,
        fst (getMe w) = Rejected e /\
        w' = snd (getMe w) /\
        called w' = (called w ++ [GetMe])%list /\
        st' = with_error (Some "Failed to load user info")
                (with_isAuthenticated (Some true) st)) \/
     (exists userInfo,
        fst (getMe w) = Fulfilled userInfo /\
        user st' = userInfo /\
        (st', w') = snd (fetchMessages
                           (with_user userInfo (with_isAuthenticated (Some true) st),
                            snd (getMe w))) /\
        called w' = (called w ++ [GetMe; GetMessages])%list)).
Proof.
  intros Hs. rewrite checkAuth_run, Hs. simpl.
  pose proof (perform_called GetMe w) as Hc. simpl in Hc.
  pose proof (perform_pushed GetMe w) as Hp. simpl in Hp.
  destruct (getMe w) as [[info|e] w1]; simpl in *.
  - destruct (fetchMessages_settles
                (with_user info (with_isAuthenticated (Some true) st)) w1)
      as (st' & Hrun & Hcalled & Hpushed & Huser & Hauth).
    rewrite Hrun. do 2 eexists. split; [reflexivity|].
    split; [rewrite Hauth; reflexivity|].
    split; [rewrite Hpushed; exact Hp|].
    right. exists info. split; [reflexivity|]. split; [rewrite Huser; reflexivity|].
    split; [rewrite Hrun; reflexivity|].
    rewrite Hcalled, Hc, <- app_assoc. reflexivity.
  - do 2 eexists. split; [reflexivity|]. split; [reflexivity|]. split; [exact Hp|].
    left. exists e. auto.
Qed.

Lemma checkAuth_loads_witness :
  exists st' w',
    checkAuth (initial, Samples.signed_in) = (Fulfilled tt, (st', w')) /\
    isAuthenticated st' = Some true /\
    pushed w' = [].
Proof.
  destruct (checkAuth_loads initial Samples.signed_in
              (mkAuthTokens "id.jwt" "access.jwt" "refresh.tok") eq_refl)
    as (st' & w' & Hrun & Hauth & Hpushed & _).
  exists st', w'. auto.
Defined.

(** X11. [handleSignOut] never rejects and sends the browser to [/login]
    once, whether or not somebody was signed in; it invokes no API
    operation, fetches nothing and leaves the page state alone. *)
Theorem handleSignOut_navigates (st : State) (w : World) :
  handleSignOut (st, w)
  = (Fulfilled tt, (st, with_pushed (pushed w ++ ["/login"]) (snd (signOut w)))) /\
  called (snd (signOut w)) = called w /\
  fetched (snd (signOut w)) = fetched w /\
  pushed (snd (signOut w)) = pushed w.
Proof.
  unfold handleSignOut, router_push, signOut, CognitoUser_signOut; run.
  destruct (currentUser w); repeat split.
Qed.

(** X12. [handleSwipeMove] never rejects and never touches the world.
    While a swipe on [id] is in progress it stores
    [min(0, clientX - startX)] as the offset of [id], which is never
    positive, and leaves the other offsets alone; for any other [id] it
    changes nothing. *)
Theorem handleSwipeMove_tracks (id clientX : Z) (st : State) (w : World) :
  exists st',
    handleSwipeMove id clientX (st, w) = (Fulfilled tt, (st', w)) /\
    if is_swiping id st
    then st' = with_swipeOffset (<[id := Z.min 0 (clientX - startX st)]> (swipeOffset st)) st /\
         offset_of id st' = Z.min 0 (clientX - startX st) /\
         offset_of id st' <= 0 /\
         (forall j, j <> id -> offset_of j st' = offset_of j st)
    else st' = st.
Proof.
  unfold handleSwipeMove, rendered, setSwipeOffset, update; run.
  destruct (is_swiping id st); simpl.
  - eexists. split; [reflexivity|]. split; [reflexivity|].
    unfold offset_of. simpl. rewrite lookup_insert_eq. simpl.
    split; [reflexivity|]. split; [lia|].
    intros j Hj. rewrite lookup_insert_ne by congruence. reflexivity.
  - eexists. split; reflexivity.
Qed.

(** X13. A whole gesture on message [id]: press at [x0], drag to [x1],
    release, each handler seeing the state the one before left.  The
    gesture never rejects; [deleteMessage(id)] is invoked exactly when the
    drag went more than 100 px to the left ([x1 - x0 < -100]); a drag to
    the right, or a shorter one, leaves world and list alone.  Afterwards
    the offset of [id] is 0 and no swipe is in progress. *)
Theorem swipe_gesture (id x0 x1 : Z) (st : State) (w : World) :
  exists st' w',
    (handleSwipeStart id x0 ;; handleSwipeMove id x1 ;; handleSwipeEnd id) (st, w)
    = (Fulfilled tt, (st', w')) /\
    swipeOffset st' !! id = Some 0 /\
    swiping st' = None /\
    ((x1 - x0 < -100 /\ called w' = (called w ++ [DeleteMessage id])%list) \/
     (-100 <= x1 - x0 /\ w' = w /\ messages st' = messages st /\ error st' = error st)).
Proof.
  unfold bind at 1. unfold handleSwipeStart, set_startX, setSwiping, update at 1; run.
  unfold handleSwipeMove, rendered, setSwipeOffset, update, is_swiping; run.
  rewrite Z.eqb_refl. simpl.
  rewrite handleSwipeEnd_run. unfold offset_of at 1. simpl.
  rewrite lookup_insert_eq. simpl.
  destruct (Z.ltb_spec (Z.min 0 (x1 - x0)) (-100)) as [Hlt | Hge].
  - match goal with
    | |- context [handleDelete id (?s, w)] =>
        destruct (handleDelete_settles id s w) as (st1 & Hrun & Hcalled)
    end.
    rewrite Hrun. do 2 eexists. split; [reflexivity|].
    split; [apply lookup_insert_eq|]. split; [reflexivity|].
    left. split; [lia | exact Hcalled].
  - do 2 eexists. split; [reflexivity|].
    split; [apply lookup_insert_eq|]. split; [reflexivity|].
    right. split; [lia|]. repeat split.
Qed.

Lemma filter_same {A} (p : A -> bool) (l : list A) :
  List.filter p l = l <-> forallb p l = true.
Proof.
  induction l as [|a l IH]; simpl; [tauto|].
  destruct (p a) eqn:Ha; simpl.
  - rewrite <- IH. split; [intros [= H]; exact H | intros ->; reflexivity].
  - split; [|discriminate].
    intros H. pose proof (filter_length_le p l) as Hle.
    rewrite H in Hle. simpl in Hle. lia.
Qed.

Lemma filter_twice {A} (p : A -> bool) (l : list A) :
  List.filter p (List.filter p l) = List.filter p l.
Proof.
  induction l as [|a l IH]; simpl; [reflexivity|].
  destruct (p a) eqn:Ha; simpl; [rewrite Ha, IH|]; auto.
Qed.

(** X14. The updater of [handleDelete] on a list: filtering a second time
    removes nothing more, the list never grows, and it comes back
    unchanged exactly when no element has the given number as its
    [id]. *)
Theorem without_id_removes_once (id : Z) (l : list JsValue) :
  exists kept,
    without_id id (JsArray l) = JsArray kept /\
    without_id id (JsArray kept) = JsArray kept /\
    (length kept <= length l)%nat /\
    (kept = l <-> Forall (fun msg => get_property msg "id" <> inr (JsNumber id)) l).
Proof.
  eexists. split; [reflexivity|]. split; [|split].
  - simpl. rewrite filter_twice. reflexivity.
  - apply filter_length_le.
  - rewrite filter_same, forallb_forall, List.Forall_forall.
    split; intros H msg Hin; specialize (H msg Hin).
    + intros Hid. rewrite Hid in H. simpl in H. rewrite Z.eqb_refl in H. discriminate.
    + destruct (get_property msg "id") as [e|v]; [reflexivity|].
      destruct v; simpl; try reflexivity.
      destruct (Z.eqb_spec n id) as [-> | Hne]; [contradiction | reflexivity].
Qed.

(** X15. Releasing a swipe on [id] leaves the offsets of all other
    messages as they were, as well as the text, the user and the loading
    flags. *)
Theorem handleSwipeEnd_other_offsets (id j : Z) (st : State) (w : World) :
  j <> id ->
  offset_of j (fst (snd (handleSwipeEnd id (st, w)))) = offset_of j st /\
  text (fst (snd (handleSwipeEnd id (st, w)))) = text st /\
  user (fst (snd (handleSwipeEnd id (st, w)))) = user st /\
  loading (fst (snd (handleSwipeEnd id (st, w)))) = loading st /\
  loadingMessages (fst (snd (handleSwipeEnd id (st, w)))) = loadingMessages st.
Proof.
  intros Hj. rewrite handleSwipeEnd_run.
  destruct (offset_of id st <? -100)%Z.
  - rewrite handleDelete_run.
    destruct (deleteMessage id w) as [[v|e] w']; simpl;
      (split; [unfold offset_of; simpl; rewrite lookup_insert_ne by congruence; reflexivity
              | repeat split]).
  - simpl. split; [|repeat split].
    unfold offset_of. simpl. rewrite lookup_insert_ne by congruence. reflexivity.
Qed.

Lemma handleSwipeEnd_other_offsets_witness :
  offset_of 7
    (fst (snd (handleSwipeEnd 8 (Samples.swiped (-40), Samples.signed_in)))) = -40.
Proof.
  apply (handleSwipeEnd_other_offsets 8 7 (Samples.swiped (-40)) Samples.signed_in).
  discriminate.
Defined.

(* ================================================================= *)
(** ** Sign-up, confirmation, sign-in and the login page *)

Ltac run_task :=
  unfold Task.and_then, Task.pure, Task.catching, Task.finally, Task.change, Task.read,
    Task.on_world in *;
  simpl in *.

Lemma handleSignIn_run (sdk : AuthSdk.Sdk) (st : Login.State) (w : World) :
  Login.handleSignIn sdk (st, w)
  = match AuthSdk.signIn sdk (Login.email st) (Login.password st) w with
    | (inr _, w1) =>
        (inr tt, (Login.with_loading false (Login.with_error None st),
                  with_pushed (pushed w1 ++ ["/"]) w1))
    | (inl err, w1) =>
        (inr tt, (Login.with_loading false
                    (Login.with_error (Some (Login.message_or "Sign in failed" err)) st),
                  w1))
    end.
Proof.
  unfold Login.handleSignIn, Login.rendered, Login.setError, Login.setLoading, Login.push,
    Login.update; run_task.
  destruct (AuthSdk.signIn sdk (Login.email st) (Login.password st) w) as [[err|tokens] w1];
    reflexivity.
Qed.

Lemma handleSignUp_run (sdk : AuthSdk.Sdk) (st : Login.State) (w : World) :
  Login.handleSignUp sdk (st, w)
  = match AuthSdk.signUp sdk (Login.email st) (Login.password st) w with
    | (inr _, w1) =>
        (inr tt, (Login.with_loading false
                    (Login.with_mode Login.confirm (Login.with_error None st)), w1))
    | (inl err, w1) =>
        (inr tt, (Login.with_loading false
                    (Login.with_error (Some (Login.message_or "Sign up failed" err)) st),
                  w1))
    end.
Proof.
  unfold Login.handleSignUp, Login.rendered, Login.setError, Login.setLoading, Login.setMode,
    Login.update; run_task.
  destruct (AuthSdk.signUp sdk (Login.email st) (Login.password st) w) as [[err|u] w1];
    reflexivity.
Qed.

Lemma handleConfirm_run (sdk : AuthSdk.Sdk) (st : Login.State) (w : World) :
  Login.handleConfirm sdk (st, w)
  = match AuthSdk.confirmSignUp sdk (Login.email st) (Login.confirmCode st) w with
    | (inr _, w1) =>
        match AuthSdk.signIn sdk (Login.email st) (Login.password st) w1 with
        | (inr _, w2) =>
            (inr tt, (Login.with_loading false (Login.with_error None st),
                      with_pushed (pushed w2 ++ ["/"]) w2))
        | (inl err, w2) =>
            (inr tt, (Login.with_loading false
                        (Login.with_error
                           (Some (Login.message_or "Confirmation failed" err)) st),
                      w2))
        end
    | (inl err, w1) =>
        (inr tt, (Login.with_loading false
                    (Login.with_error (Some (Login.message_or "Confirmation failed" err)) st),
                  w1))
    end.
Proof.
  unfold Login.handleConfirm, Login.rendered, Login.setError, Login.setLoading, Login.push,
    Login.update; run_task.
  destruct (AuthSdk.confirmSignUp sdk (Login.email st) (Login.confirmCode st) w)
    as [[err|u] w1]; [reflexivity|].
  simpl.
  destruct (AuthSdk.signIn sdk (Login.email st) (Login.password st) w1) as [[err|tokens] w2];
    reflexivity.
Qed.

(** X17. [handleSignIn] never rejects and always ends with the loading
    flag off and the typed e-mail, password and mode untouched.  If
    [signIn] succeeds the old error is cleared and the browser is sent to
    [/]; if it fails there is no navigation and the error shown is the
    message of the rejection when that is an [Error], and "Sign in failed"
    when it is any other value. *)
Theorem handleSignIn_outcome (sdk : AuthSdk.Sdk) (st : Login.State) (w : World) :
  exists st' w',
    Login.handleSignIn sdk (st, w) = (inr tt, (st', w')) /\
    Login.loading st' = false /\
    Login.mode st' = Login.mode st /\
    Login.email st' = Login.email st /\
    Login.password st' = Login.password st /\
    ((exists tokens w1,
        AuthSdk.signIn sdk (Login.email st) (Login.password st) w = (inr tokens, w1) /\
        Login.error st' = None /\
        w' = with_pushed (pushed w1 ++ ["/"]) w1) \/
     (exists e w1,
        AuthSdk.signIn sdk (Login.email st) (Login.password st) w
        = (inl (AuthSdk.AnError e), w1) /\
        Login.error st' = Some (message e) /\
        w' = w1) \/
     (exists v w1,
        AuthSdk.signIn sdk (Login.email st) (Login.password st) w
        = (inl (AuthSdk.NotAnError v), w1) /\
        Login.error st' = Some "Sign in failed" /\
        w' = w1)).
Proof.
  rewrite handleSignIn_run.
  destruct (AuthSdk.signIn sdk (Login.email st) (Login.password st) w)
    as [[[e|v]|tokens] w1]; do 2 eexists; (split; [reflexivity|]); repeat split.
  - right. left. eauto.
  - right. right. eauto.
  - left. eauto.
Qed.

(** X18. [handleSignUp] never rejects, never navigates, and ends with the
    loading flag off.  If [signUp] succeeds the page moves to the
    confirmation form with the old error cleared; if it fails the mode
    stays and the error shown is the rejection's message, or "Sign up
    failed" when the rejection is not an [Error].  The world is the one
    the provider left. *)
Theorem handleSignUp_outcome (sdk : AuthSdk.Sdk) (st : Login.State) (w : World) :
  exists st',
    Login.handleSignUp sdk (st, w)
    = (inr tt, (st', snd (AuthSdk.signUp sdk (Login.email st) (Login.password st) w))) /\
    Login.loading st' = false /\
    Login.email st' = Login.email st /\
    Login.password st' = Login.password st /\
    ((fst (AuthSdk.signUp sdk (Login.email st) (Login.password st) w) = inr tt /\
      Login.mode st' = Login.confirm /\
      Login.error st' = None) \/
     (exists err,
        fst (AuthSdk.signUp sdk (Login.email st) (Login.password st) w) = inl err /\
        Login.mode st' = Login.mode st /\
        Login.error st' = Some (Login.message_or "Sign up failed" err))).
Proof.
  rewrite handleSignUp_run.
  destruct (AuthSdk.signUp sdk (Login.email st) (Login.password st) w)
    as [[err|[]] w1]; eexists; (split; [reflexivity|]); repeat split.
  - right. eauto.
  - left. auto.
Qed.

(** X19. [handleConfirm] never rejects and ends with the loading flag
    off.  If the confirmation fails, sign-in is not attempted: the world
    is the one the confirmation left, and the error is shown.  If the
    confirmation succeeds but the automatic sign-in fails, there is no
    navigation and the error shown is the sign-in's message (or
    "Confirmation failed" when its rejection is not an [Error]).  Only
    when both succeed is the browser sent to [/]. *)
Theorem handleConfirm_outcome (sdk : AuthSdk.Sdk) (st : Login.State) (w : World) :
  exists st' w',
    Login.handleConfirm sdk (st, w) = (inr tt, (st', w')) /\
    Login.loading st' = false /\
    Login.mode st' = Login.mode st /\
    ((exists err,
        AuthSdk.confirmSignUp sdk (Login.email st) (Login.confirmCode st) w = (inl err, w') /\
        Login.error st' = Some (Login.message_or "Confirmation failed" err)) \/
     (exists w1 err,
        AuthSdk.confirmSignUp sdk (Login.email st) (Login.confirmCode st) w = (inr tt, w1) /\
        AuthSdk.signIn sdk (Login.email st) (Login.password st) w1 = (inl err, w') /\
        Login.error st' = Some (Login.message_or "Confirmation failed" err)) \/
     (exists w1 tokens w2,
        AuthSdk.confirmSignUp sdk (Login.email st) (Login.confirmCode st) w = (inr tt, w1) /\
        AuthSdk.signIn sdk (Login.email st) (Login.password st) w1 = (inr tokens, w2) /\
        Login.error st' = None /\
        w' = with_pushed (pushed w2 ++ ["/"]) w2)).
Proof.
  rewrite handleConfirm_run.
  destruct (AuthSdk.confirmSignUp sdk (Login.email st) (Login.confirmCode st) w)
    as [[err|[]] w1].
  - do 2 eexists. split; [reflexivity|]. repeat split. left. eauto.
  - destruct (AuthSdk.signIn sdk (Login.email st) (Login.password st) w1)
      as [[err|tokens] w2] eqn:Hs.
    + do 2 eexists. split; [reflexivity|]. repeat split. right. left. eauto.
    + do 2 eexists. split; [reflexivity|]. repeat split. right. right. eauto 8.
Qed.

Example handleConfirm_wrong_password :
  Login.handleConfirm LoginSamples.one_account
    (LoginSamples.filled Login.confirm "letmein", Samples.world_of None Samples.notes_server)
  = (inr tt,
     (Login.with_error (Some "Incorrect username or password.")
        (LoginSamples.filled Login.confirm "letmein"),
      Samples.world_of None Samples.notes_server)).
Proof. reflexivity. Qed.

(** X20. The tokens [signIn] resolves with are the ones [getCurrentSession]
    reports afterwards, provided the provider cached the session it handed
    to [onSuccess] and that session is valid. *)
Theorem signIn_then_getCurrentSession (sdk : AuthSdk.Sdk) (email password : string)
    (w w' : World) (tokens : AuthTokens) (u : CognitoUser) (session : CognitoUserSession) :
  AuthSdk.signIn sdk email password w = (inr tokens, w') ->
  AuthSdk.authenticateUser sdk email
    {| AuthSdk.Username := email; AuthSdk.Password := password |} w = (inr session, w') ->
  currentUser w' = Some u ->
  getSession u = (None, Some session) ->
  isValid session = true ->
  getCurrentSession w' = (Fulfilled (Some tokens), w').
Proof.
  intros Hin Hauth Hu Hs Hv.
  unfold AuthSdk.signIn in Hin. rewrite Hauth in Hin. injection Hin as <-.
  unfold getCurrentSession; run. rewrite Hu, Hs, Hv. reflexivity.
Qed.

Lemma signIn_then_getCurrentSession_witness :
  getCurrentSession (with_currentUser (Some Samples.alice)
                       (Samples.world_of None Samples.notes_server))
  = (Fulfilled (Some (mkAuthTokens "id.jwt" "access.jwt" "refresh.tok")),
     with_currentUser (Some Samples.alice) (Samples.world_of None Samples.notes_server)).
Proof.
  apply (signIn_then_getCurrentSession LoginSamples.one_account
           "alice@example.com" "hunter2"
           (Samples.world_of None Samples.notes_server) _ _
           Samples.alice Samples.alice_session);
    reflexivity.
Defined.

(** X21. From the login page to the home page: when [handleSignIn]'s
    sign-in succeeds and the provider cached the valid session it handed
    out, [checkAuth] on the home page does not send the browser back to
    [/login]: it marks the page authenticated and the only navigation on
    record is the one to [/]. *)
Theorem signIn_then_checkAuth (sdk : AuthSdk.Sdk) (st : Login.State) (home : State)
    (w w1 : World) (tokens : AuthTokens) (u : CognitoUser) (session : CognitoUserSession) :
  AuthSdk.signIn sdk (Login.email st) (Login.password st) w = (inr tokens, w1) ->
  currentUser w1 = Some u ->
  getSession u = (None, Some session) ->
  isValid session = true ->
  exists st' home' w2 w3,
    Login.handleSignIn sdk (st, w) = (inr tt, (st', w2)) /\
    checkAuth (home, w2) = (Fulfilled tt, (home', w3)) /\
    isAuthenticated home' = Some true /\
    pushed w3 = (pushed w1 ++ ["/"])%list.
Proof.
  intros Hin Hu Hs Hv.
  set (w2 := with_pushed (pushed w1 ++ ["/"]) w1).
  assert (exists t, fst (getCurrentSession w2) = Fulfilled (Some t)) as [t Ht].
  { unfold getCurrentSession; run. rewrite Hu, Hs, Hv. eauto. }
  assert (exists home' w3,
            checkAuth (home, w2) = (Fulfilled tt, (home', w3)) /\
            isAuthenticated home' = Some true /\
            pushed w3 = pushed w2) as (home' & w3 & Hrun & Hauth & Hpushed).
  { rewrite checkAuth_run, Ht. simpl.
    pose proof (perform_pushed GetMe w2) as Hp. simpl in Hp.
    destruct (getMe w2) as [[info|e] w3]; simpl in *.
    - destruct (fetchMessages_settles
                  (with_user info (with_isAuthenticated (Some true) home)) w3)
        as (home' & Hrun & _ & Hpushed & _ & Hauth).
      rewrite Hrun. do 2 eexists. split; [reflexivity|].
      split; [rewrite Hauth; reflexivity|]. rewrite Hpushed. exact Hp.
    - do 2 eexists. split; [reflexivity|]. split; [reflexivity | exact Hp]. }
  exists (Login.with_loading false (Login.with_error None st)), home', w2, w3.
  split; [rewrite handleSignIn_run, Hin; reflexivity|].
  split; [exact Hrun|]. split; [exact Hauth | exact Hpushed].
Qed.

Lemma signIn_then_checkAuth_witness :
  exists st' home' w2 w3,
    Login.handleSignIn LoginSamples.one_account
      (LoginSamples.filled Login.signin "hunter2", Samples.world_of None Samples.notes_server)
    = (inr tt, (st', w2)) /\
    checkAuth (initial, w2) = (Fulfilled tt, (home', w3)) /\
    isAuthenticated home' = Some true /\
    pushed w3 = ["/"].
Proof.
  apply (signIn_then_checkAuth LoginSamples.one_account
           (LoginSamples.filled Login.signin "hunter2") initial
           (Samples.world_of None Samples.notes_server)
           (with_currentUser (Some Samples.alice) (Samples.world_of None Samples.notes_server))
           (mkAuthTokens "id.jwt" "access.jwt" "refresh.tok")
           Samples.alice Samples.alice_session);
    reflexivity.
Defined.
